(** * scan.py: the scan-and-propagate pipeline of bucket-antivirus-function

    A shallow embedding of [src/scan.py] (Python 2) and the properties of
    its handler.

    - Byte strings are [string] (a list of 8-bit [ascii]); a [unicode] value
      is represented by its UTF-8 encoding, so [.encode('utf8')] is the
      identity on the representation.
    - The event and the decoded message are JSON values; [json.loads],
      [json.dumps] and [str] are parameters ([PyLib]), as are the constants
      read from the process environment ([Config]).
    - The collaborators (S3, SNS, the webhook, ClamAV, the metrics module,
      [create_dir], the local file system) are reached through primitive
      steps that record each call in the world and ask an environment
      ([Env]) whether the call raises and what it answers.  The tag sets
      kept by S3 and the regular files on the local disk are part of the
      world.
    - The handler runs in a state and exception monad over the world.
    - [print] writes to the log and is taken not to raise; the log is not
      part of the world.  The evaluation of the argument of the print of
      line 140 is modelled, since it can raise. *)

From Stdlib Require Import Ascii String.
From stdpp Require Import base decidable option list strings pretty gmap.

Local Open Scope string_scope.
#[local] Set Warnings "-register-all".

(** ** Python values and exceptions *)

(** What [json.loads] returns, and what the Lambda runtime hands to the
    handler: [None], [bool], [int], [unicode], [list], [dict].  A dict is an
    association list whose first binding of a key is the live one. *)
Inductive json : Type :=
| JNull
| JBool (b : bool)
| JNum (n : Z)
| JStr (s : string)
| JArr (items : list json)
| JObj (fields : list (string * json)).

Inductive exn : Type :=
| KeyError (k : string)
| IndexError
| TypeError
| AttributeError
| ValueError
| UnicodeDecodeError
| OSError
| PyException (msg : string)
| ExternalError (who : string).

Inductive pyresult (A : Type) : Type :=
| OK (a : A)
| Err (e : exn).
Arguments OK {A} a.
Arguments Err {A} e.

Definition pbind {A B} (r : pyresult A) (f : A -> pyresult B) : pyresult B :=
  match r with
  | OK a => f a
  | Err e => Err e
  end.

Declare Scope py_scope.
Delimit Scope py_scope with py.
Notation "x <-? r ; k" := (pbind r (fun x => k))
  (at level 100, r at next level, right associativity) : py_scope.

(** ** Dictionaries, subscripts and truth values *)

Fixpoint dict_get {V} (k : string) (d : list (string * V)) : option V :=
  match d with
  | [] => None
  | (k', v) :: d' => if decide (k' = k) then Some v else dict_get k d'
  end.

(** [d[k] = v]: the binding is replaced in place, or appended. *)
Fixpoint dict_set {V} (k : string) (v : V) (d : list (string * V))
  : list (string * V) :=
  match d with
  | [] => [(k, v)]
  | (k', v') :: d' =>
      if decide (k' = k) then (k, v) :: d' else (k', v') :: dict_set k v d'
  end.

(** [x[k]] with a string [k]. *)
Definition getitem (x : json) (k : string) : pyresult json :=
  match x with
  | JObj d => match dict_get k d with
              | Some v => OK v
              | None => Err (KeyError k)
              end
  | _ => Err TypeError
  end.

(** [x[0]]: the first item of a list, the first character of a string; a
    dict decoded from JSON has no integer key. *)
Definition getitem0 (x : json) : pyresult json :=
  match x with
  | JArr (v :: _) => OK v
  | JArr [] => Err IndexError
  | JStr (String c _) => OK (JStr (String c EmptyString))
  | JStr EmptyString => Err IndexError
  | JObj _ => Err (KeyError "0")
  | _ => Err TypeError
  end.

(** [bool(x)]. *)
Definition truthy (x : json) : bool :=
  match x with
  | JNull => false
  | JBool b => b
  | JNum n => negb (n =? 0)%Z
  | JStr s => negb (String.eqb s "")
  | JArr l => match l with [] => false | _ => true end
  | JObj d => match d with [] => false | _ => true end
  end.

(** [x.encode('utf8')]: only strings have the method. *)
Definition encode_utf8 (x : json) : pyresult string :=
  match x with
  | JStr s => OK s
  | _ => Err AttributeError
  end.

(** ** Byte-string helpers *)

Definition is_ascii_char (c : ascii) : bool := (nat_of_ascii c <? 128)%nat.

Fixpoint all_ascii (s : string) : bool :=
  match s with
  | EmptyString => true
  | String c s' => is_ascii_char c && all_ascii s'
  end.

Fixpoint str_drop (n : nat) (s : string) : string :=
  match n, s with
  | S k, String _ s' => str_drop k s'
  | _, _ => s
  end.

Fixpoint starts_with (p s : string) : bool :=
  match p, s with
  | EmptyString, _ => true
  | String a p', String b s' => Ascii.eqb a b && starts_with p' s'
  | String _ _, EmptyString => false
  end.

Fixpoint contains (p s : string) : bool :=
  starts_with p s ||
  match s with
  | EmptyString => false
  | String _ s' => contains p s'
  end.

(** [s.replace(old, new)] for a non-empty [old]: occurrences are taken left
    to right and do not overlap.  [skip] counts the characters of a matched
    occurrence still to be passed over. *)
Fixpoint replace_from (old new : string) (skip : nat) (s : string) : string :=
  match s with
  | EmptyString => EmptyString
  | String c s' =>
      match skip with
      | S k => replace_from old new k s'
      | O => if starts_with old s
             then new +:+ replace_from old new (String.length old - 1) s'
             else String c (replace_from old new 0 s')
      end
  end.

(** With an empty [old], Python puts [new] before every character and at
    the end. *)
Fixpoint interleave (new s : string) : string :=
  new +:+ match s with
          | EmptyString => EmptyString
          | String c s' => String c (interleave new s')
          end.

Definition str_replace (old new s : string) : string :=
  match old with
  | EmptyString => interleave new s
  | _ => replace_from old new 0 s
  end.

(** ** [urllib.unquote] and [urllib.unquote_plus] (Python 2, byte strings) *)

(** [_hexdig = '0123456789ABCDEFabcdef'] *)
Definition hex_value (c : ascii) : option nat :=
  let n := nat_of_ascii c in
  if (48 <=? n)%nat && (n <=? 57)%nat then Some (n - 48)
  else if (65 <=? n)%nat && (n <=? 70)%nat then Some (n - 55)
  else if (97 <=? n)%nat && (n <=? 102)%nat then Some (n - 87)
  else None.

(** [s.split('%')]: the pieces between the percent signs, never empty. *)
Fixpoint split_percent (s : string) : list string :=
  match s with
  | EmptyString => [EmptyString]
  | String c s' =>
      if Ascii.eqb c "%"%char then EmptyString :: split_percent s'
      else match split_percent s' with
           | b :: bs => String c b :: bs
           | [] => [String c EmptyString]
           end
  end.

(** One piece after a percent sign: [_hextochr[item[:2]] + item[2:]], or
    ['%' + item] when the lookup raises [KeyError]. *)
Definition unquote_item (item : string) : string :=
  match item with
  | String a (String b rest) =>
      match hex_value a, hex_value b with
      | Some h, Some l => String (ascii_of_nat (16 * h + l)) rest
      | _, _ => String "%"%char item
      end
  | _ => String "%"%char item
  end.

Fixpoint str_concat (l : list string) : string :=
  match l with
  | [] => EmptyString
  | s :: l' => s +:+ str_concat l'
  end.

Definition unquote (s : string) : string :=
  match split_percent s with
  | [] => s
  | [_] => s
  | b :: items => b +:+ str_concat (map unquote_item items)
  end.

Definition unquote_plus (s : string) : string :=
  unquote (str_replace "+" " " s).

(** ** [os.path] (posixpath) *)

(** [p[p.rfind('/') + 1:]], or [None] when [p] has no slash. *)
Fixpoint after_last_slash (p : string) : option string :=
  match p with
  | EmptyString => None
  | String c p' =>
      match after_last_slash p' with
      | Some t => Some t
      | None => if Ascii.eqb c "/"%char then Some p' else None
      end
  end.

Definition basename (p : string) : string :=
  match after_last_slash p with
  | Some t => t
  | None => p
  end.

Fixpoint str_take (n : nat) (s : string) : string :=
  match n, s with
  | S k, String c s' => String c (str_take k s')
  | _, _ => EmptyString
  end.

Fixpoint all_slashes (s : string) : bool :=
  match s with
  | EmptyString => true
  | String c s' => Ascii.eqb c "/"%char && all_slashes s'
  end.

(** [s.rstrip('/')] *)
Fixpoint rstrip_slash (s : string) : string :=
  match s with
  | EmptyString => EmptyString
  | String c s' => if all_slashes s then EmptyString
                   else String c (rstrip_slash s')
  end.

Definition dirname (p : string) : string :=
  let head := str_take (String.length p - String.length (basename p)) p in
  if all_slashes head then head else rstrip_slash head.

Definition ends_with_slash (s : string) : bool :=
  match after_last_slash s with
  | Some EmptyString => true
  | _ => false
  end.

(** [os.path.join(a, b)] with [a] a value decoded from JSON and [b] a byte
    string.  Joining a [unicode] head with a byte string decodes the bytes
    as ASCII. *)
Definition os_path_join (a : json) (b : string) : pyresult string :=
  if starts_with "/" b then OK b
  else match a with
       | JStr p =>
           if negb (all_ascii b) then Err UnicodeDecodeError
           else if String.eqb p "" || ends_with_slash p then OK (p +:+ b)
           else OK (p +:+ "/" +:+ b)
       | _ => Err AttributeError
       end.

(** ** Data model *)

(** One entry of an S3 [TagSet]. *)
Record Tag : Type := mkTag { Key : string; Value : string }.

Global Instance Tag_eq_dec : EqDecision Tag.
Proof. solve_decision. Defined.

(** [s3.Object(bucket, key)]: the two identifiers, as given. *)
Record S3Object : Type := s3_Object { bucket_name : json; key : string }.

(** Deployment constants, read from the process environment when the
    module is loaded ([ENV] in scan.py, the others in the [common] module). *)
Record Config : Type := mkConfig {
  ENV : string;
  AV_STATUS_METADATA : string;
  AV_TIMESTAMP_METADATA : string;
  AV_STATUS_SNS_ARN : option string;
  AV_DEFINITION_S3_BUCKET : string;
  AV_DEFINITION_S3_PREFIX : string;
  AV_UPDATE_METADATA : bool   (* ["AV_UPDATE_METADATA" in os.environ] *)
}.

(** Functions of the Python runtime that the handler calls. *)
Record PyLib : Type := mkPyLib {
  json_loads : string -> pyresult json;
  json_dumps : json -> pyresult string;
  py_str : json -> string     (* [str(x)] of a value that is not a string *)
}.

(** Calls that leave the handler. *)
Inductive Call : Type :=
| HttpPost (url : string) (body : json) (authorization : json)
| HttpPatch (url : string) (body : json) (authorization : json)
| CreateDir (path : string)
| S3DownloadFile (bucket : json) (k : string) (local_path : string)
| ClamavUpdateDefs (bucket prefix : string)
| ClamavScanFile (path : string)
| S3HeadObject (bucket : json) (k : string)
| S3Copy (bucket : json) (k : string) (content_type : string)
         (metadata : gmap string string)
| S3GetObjectTagging (bucket : json) (k : string)
| S3PutObjectTagging (bucket : json) (k : string) (tagset : list Tag)
| Boto3Client (service : string)
| SnsPublish (target_arn : string) (message : string)
| MetricsSend (env : string) (bucket : json) (k : string) (status : string)
| OsRemove (path : string).

(** What the collaborators answer, as a function of the calls made so far. *)
Record Env : Type := mkEnv {
  env_fault : list Call -> Call -> option exn;
  env_scan_file : list Call -> string -> string * string;
  env_head_object : list Call -> json -> string -> string * gmap string string;
  env_utcnow : list Call -> string
}.

Global Instance json_eq_dec : EqDecision json.
Proof.
  refine (fix go (x y : json) {struct x} : Decision (x = y) :=
    match x, y with
    | JNull, JNull => left _
    | JBool a, JBool b => cast_if (decide (a = b))
    | JNum a, JNum b => cast_if (decide (a = b))
    | JStr a, JStr b => cast_if (decide (a = b))
    | JArr a, JArr b =>
        cast_if ((fix items (l1 l2 : list json) : Decision (l1 = l2) :=
                    match l1, l2 with
                    | [], [] => left _
                    | u :: l1', v :: l2' => cast_if_and (go u v) (items l1' l2')
                    | _, _ => right _
                    end) a b)
    | JObj a, JObj b =>
        cast_if ((fix fields (l1 l2 : list (string * json)) : Decision (l1 = l2) :=
                    match l1, l2 with
                    | [], [] => left _
                    | (j, u) :: l1', (k, v) :: l2' =>
                        cast_if_and3 (decide (j = k)) (go u v) (fields l1' l2')
                    | _, _ => right _
                    end) a b)
    | _, _ => right _
    end); clear go; try clear items; try clear fields; congruence.
Defined.

(** The part of the world the handler can change: the calls it has made,
    the regular files on the local disk and the tag sets kept by S3. *)
Record World : Type := mkWorld {
  calls : list Call;
  files : gset string;
  tagsets : json -> string -> list Tag
}.

Definition record_call (c : Call) (w : World) : World :=
  mkWorld (calls w ++ [c])%list (files w) (tagsets w).

Definition put_tags (b : json) (k : string) (ts : list Tag)
    (store : json -> string -> list Tag) : json -> string -> list Tag :=
  fun b' k' => if decide (b' = b /\ k' = k) then ts else store b' k'.

(** The effect of a call that succeeds. *)
Definition effect (c : Call) (w : World) : World :=
  match c with
  | S3DownloadFile _ _ p => mkWorld (calls w) ({[p]} ∪ files w) (tagsets w)
  | S3PutObjectTagging b k ts => mkWorld (calls w) (files w) (put_tags b k ts (tagsets w))
  | _ => w
  end.

(** ** The state and exception monad of the handler *)

Definition M (A : Type) : Type := World -> World * pyresult A.

Definition ret {A} (a : A) : M A := fun w => (w, OK a).
Definition raise {A} (e : exn) : M A := fun w => (w, Err e).
Definition bind {A B} (m : M A) (f : A -> M B) : M B :=
  fun w => match m w with
           | (w', OK a) => f a w'
           | (w', Err e) => (w', Err e)
           end.
Definition lift {A} (r : pyresult A) : M A := fun w => (w, r).

(** [try: m except OSError: pass] *)
Definition except_OSError_pass (m : M unit) : M unit :=
  fun w => match m w with
           | (w', Err OSError) => (w', OK tt)
           | other => other
           end.

Declare Scope M_scope.
Delimit Scope M_scope with M.
Notation "'let*' x := m 'in' k" := (bind m (fun x => k))
  (at level 10, x pattern, m at level 100, k at level 200) : M_scope.
Notation "m >> k" := (bind m (fun _ => k))
  (at level 100, k at level 200, right associativity) : M_scope.

(** ** scan.py *)

Section Scan.

Variable lib : PyLib.
Variable cfg : Config.
Variable env : Env.

(** A call whose outcome the environment decides. *)
Definition external (c : Call) : M unit :=
  fun w =>
    match env_fault env (calls w) c with
    | Some e => (record_call c w, Err e)
    | None => (effect c (record_call c w), OK tt)
    end.

(** [datetime.utcnow().strftime("%Y/%m/%d %H:%M:%S UTC")] *)
Definition utcnow_strftime : M string :=
  fun w => (w, OK (env_utcnow env (calls w))).

(** [os.remove(path)]: a regular file on disk is unlinked (the handler
    created it itself, under [/tmp]); a path that is not on disk raises
    [OSError]. *)
Definition os_remove (path : string) : M unit :=
  fun w =>
    let w1 := record_call (OsRemove path) w in
    if decide (path ∈ files w)
    then (mkWorld (calls w1) (files w1 ∖ {[path]}) (tagsets w1), OK tt)
    else (w1, Err OSError).

(** [clamav.scan_file(path)] *)
Definition clamav_scan_file (path : string) : M (string * string) :=
  fun w =>
    match env_fault env (calls w) (ClamavScanFile path) with
    | Some e => (record_call (ClamavScanFile path) w, Err e)
    | None => (record_call (ClamavScanFile path) w,
               OK (env_scan_file env (calls w) path))
    end.

(** The first attribute read of [s3_object] loads the object's head. *)
Definition s3_object_load (o : S3Object) : M (string * gmap string string) :=
  fun w =>
    let c := S3HeadObject (bucket_name o) (key o) in
    match env_fault env (calls w) c with
    | Some e => (record_call c w, Err e)
    | None => (record_call c w,
               OK (env_head_object env (calls w) (bucket_name o) (key o)))
    end.

(** [s3_client.get_object_tagging(Bucket=..., Key=...)["TagSet"]] *)
Definition get_object_tagging (b : json) (k : string) : M (list Tag) :=
  fun w =>
    let c := S3GetObjectTagging b k in
    match env_fault env (calls w) c with
    | Some e => (record_call c w, Err e)
    | None => (record_call c w, OK (tagsets w b k))
    end.

(** The message of both decoders: lines 30 and 40. *)
Definition event_message (event : json) : pyresult json :=
  (records <-? getitem event "Records";
   record <-? getitem0 records;
   sns <-? getitem record "Sns";
   text <-? getitem sns "Message";
   match text with
   | JStr s => json_loads lib s
   | _ => Err TypeError
   end)%py.

Definition event_object (event : json) : pyresult S3Object :=
  (message <-? event_message event;
   bucket <-? getitem message "bucket";
   raw <-? getitem message "key";
   encoded <-? encode_utf8 raw;
   let key := unquote_plus encoded in
   if negb (truthy bucket) || String.eqb key ""
   then Err (PyException "Unable to retrieve object from event.")
   else OK (s3_Object bucket key))%py.

Definition event_webhook (event : json) : pyresult (string * json) :=
  (message <-? event_message event;
   raw <-? getitem message "webhook";
   encoded <-? encode_utf8 raw;
   let webhook := str_replace ":service" "antivirus" (unquote_plus encoded) in
   auth <-? getitem message "auth";
   if String.eqb webhook ""
   then Err (PyException "Unable to retrieve webhook from event.")
   else OK (webhook, auth))%py.

(** ["%s/%s/%s" % (local_prefix, s3_object.bucket_name, s3_object.key)]: a
    [unicode] bucket name makes the result [unicode] and the key is decoded
    as ASCII. *)
Definition local_path_of (local_prefix : string) (o : S3Object)
  : pyresult string :=
  match bucket_name o with
  | JStr b =>
      if all_ascii (key o)
      then OK (local_prefix +:+ "/" +:+ b +:+ "/" +:+ key o)
      else Err UnicodeDecodeError
  | other => OK (local_prefix +:+ "/" +:+ py_str lib other +:+ "/" +:+ key o)
  end.

Definition download_s3_object (s3_object : S3Object) (local_prefix : string)
  : M string :=
  (let* local_path := lift (local_path_of local_prefix s3_object) in
   external (CreateDir (dirname local_path)) >>
   external (S3DownloadFile (bucket_name s3_object) (key s3_object) local_path) >>
   ret local_path)%M.

Definition set_av_metadata (s3_object : S3Object) (result : string) : M unit :=
  (let* head := s3_object_load s3_object in
   let content_type := fst head in
   let metadata := snd head in
   let metadata := <[AV_STATUS_METADATA cfg := result]> metadata in
   let* now := utcnow_strftime in
   let metadata := <[AV_TIMESTAMP_METADATA cfg := now]> metadata in
   external (S3Copy (bucket_name s3_object) (key s3_object)
                    content_type metadata))%M.

(** [l.remove(x)]: the first item equal to [x] goes; [None] stands for the
    [ValueError] of a missing item. *)
Fixpoint list_remove (x : Tag) (l : list Tag) : option (list Tag) :=
  match l with
  | [] => None
  | y :: l' => if decide (y = x) then Some l'
               else cons y <$> list_remove x l'
  end.

Definition is_av_key (k : string) : bool :=
  bool_decide (k = AV_STATUS_METADATA cfg)
  || bool_decide (k = AV_TIMESTAMP_METADATA cfg).

(** Lines 77-79: the loop runs over [curr_tags] and edits [new_tags]. *)
Fixpoint remove_av_tags (curr_tags new_tags : list Tag)
  : pyresult (list Tag) :=
  match curr_tags with
  | [] => OK new_tags
  | tag :: rest =>
      if is_av_key (Key tag)
      then match list_remove tag new_tags with
           | Some new_tags' => remove_av_tags rest new_tags'
           | None => Err ValueError
           end
      else remove_av_tags rest new_tags
  end.

Definition set_av_tags (s3_object : S3Object) (result : string) : M unit :=
  (let* curr_tags := get_object_tagging (bucket_name s3_object) (key s3_object) in
   let* new_tags := lift (remove_av_tags curr_tags curr_tags) in
   let new_tags := (new_tags ++ [mkTag (AV_STATUS_METADATA cfg) result])%list in
   let* now := utcnow_strftime in
   let new_tags := (new_tags ++ [mkTag (AV_TIMESTAMP_METADATA cfg) now])%list in
   external (S3PutObjectTagging (bucket_name s3_object) (key s3_object)
                                new_tags))%M.

(** The dict literal of lines 92-97, evaluated left to right. *)
Definition sns_message (s3_object : S3Object) (result now : string)
  : list (string * json) :=
  dict_set (AV_TIMESTAMP_METADATA cfg) (JStr now)
    (dict_set (AV_STATUS_METADATA cfg) (JStr result)
       (dict_set "key" (JStr (key s3_object))
          (dict_set "bucket" (bucket_name s3_object) []))).

Definition sns_scan_results (s3_object : S3Object) (result : string) : M unit :=
  match AV_STATUS_SNS_ARN cfg with
  | None => ret tt
  | Some arn =>
      (let* now := utcnow_strftime in
       let message := sns_message s3_object result now in
       external (Boto3Client "sns") >>
       let* inner := lift (json_dumps lib (JObj message)) in
       let* outer := lift (json_dumps lib (JObj [("default", JStr inner)])) in
       external (SnsPublish arn outer))%M
  end.

Definition webhook_scan_started (s3_object : S3Object) (webhook : string)
    (auth : json) : M unit :=
  if String.eqb webhook "" then ret tt
  else external (HttpPost webhook (JObj []) auth).

(** The payload of lines 116-126. *)
Definition webhook_message (s3_object : S3Object) (result output : string)
  : json :=
  let is_infected := String.eqb result "INFECTED" in
  let details := if is_infected then "INFECTED: " +:+ output else "clean" in
  JObj [("filename", JStr (basename (key s3_object)));
        ("is_infected", JBool is_infected);
        ("status", JStr "success");
        ("result", JStr details)].

Definition webhook_scan_results (s3_object : S3Object) (result output : string)
    (webhook : string) (auth : json) : M unit :=
  if String.eqb webhook "" then ret tt
  else external (HttpPatch webhook (webhook_message s3_object result output) auth).

(** The text printed at line 140:
    ["Scan of s3://%s resulted in %s\n" % (os.path.join(bucket, key), result)].
    The joined path is the key itself, a byte string, when the key is
    absolute; otherwise it is [unicode] like the bucket name, the whole text
    becomes [unicode] and the status is decoded as ASCII. *)
Definition scan_log_line (o : S3Object) (scan_result : string)
  : pyresult string :=
  (joined <-? os_path_join (bucket_name o) (key o);
   if starts_with "/" (key o) || all_ascii scan_result
   then OK ("Scan of s3://" +:+ joined +:+ " resulted in " +:+ scan_result
            +:+ String "010"%char EmptyString)
   else Err UnicodeDecodeError)%py.

(** [lambda_handler(event, context)]; [context] is never read. *)
Definition lambda_handler (event : json) : M unit :=
  (let* s3_object := lift (event_object event) in
   let* wa := lift (event_webhook event) in
   let webhook := fst wa in
   let auth := snd wa in
   webhook_scan_started s3_object webhook auth >>
   let* file_path := download_s3_object s3_object "/tmp" in
   external (ClamavUpdateDefs (AV_DEFINITION_S3_BUCKET cfg)
                              (AV_DEFINITION_S3_PREFIX cfg)) >>
   let* scan := clamav_scan_file file_path in
   let scan_result := fst scan in
   let scan_output := snd scan in
   (* the text of the print of line 140 *)
   lift (scan_log_line s3_object scan_result) >>
   (if AV_UPDATE_METADATA cfg
    then set_av_metadata s3_object scan_result else ret tt) >>
   set_av_tags s3_object scan_result >>
   sns_scan_results s3_object scan_result >>
   webhook_scan_results s3_object scan_result scan_output webhook auth >>
   external (MetricsSend (ENV cfg) (bucket_name s3_object) (key s3_object)
                         scan_result) >>
   except_OSError_pass (os_remove file_path))%M.

End Scan.

(** ** A JSON reader and writer for concrete runs

    [json.loads] and [json.dumps] are parameters of the embedding
    ([PyLib]).  To run the handler on concrete events they are instantiated
    with a reader and a writer for the JSON subset without escapes other
    than the escaped quote and backslash, without floats and without
    non-ASCII characters.  The writer uses the separators of Python's
    default: a comma or a colon, followed by a space. *)
Module Json.

Definition quote : ascii := "034"%char.
Definition backslash : ascii := "092"%char.

Definition is_space (c : ascii) : bool :=
  Ascii.eqb c " "%char || Ascii.eqb c "010"%char
  || Ascii.eqb c "013"%char || Ascii.eqb c "009"%char.

Fixpoint skip_ws (s : string) : string :=
  match s with
  | String c s' => if is_space c then skip_ws s' else s
  | EmptyString => s
  end.

Definition digit_value (c : ascii) : option Z :=
  let n := nat_of_ascii c in
  if (48 <=? n)%nat && (n <=? 57)%nat then Some (Z.of_nat (n - 48)) else None.

Fixpoint read_digits (acc : Z) (s : string) : Z * string :=
  match s with
  | String c s' =>
      match digit_value c with
      | Some d => read_digits (10 * acc + d) s'
      | None => (acc, s)
      end
  | EmptyString => (acc, s)
  end.

(** The characters up to the closing quote. *)
Fixpoint read_chars (s : string) : option (string * string) :=
  match s with
  | EmptyString => None
  | String c s' =>
      if Ascii.eqb c quote then Some (EmptyString, s')
      else if Ascii.eqb c backslash then
        match s' with
        | String e s'' =>
            if Ascii.eqb e quote || Ascii.eqb e backslash
            then '(t, r) ← read_chars s''; Some (String e t, r)
            else None
        | EmptyString => None
        end
      else if is_ascii_char c
        then '(t, r) ← read_chars s'; Some (String c t, r)
        else None
  end.

Fixpoint read_value (fuel : nat) (s : string) : option (json * string) :=
  match fuel with
  | O => None
  | S n =>
      match skip_ws s with
      | String c rest =>
          if Ascii.eqb c "{"%char then
            match skip_ws rest with
            | String "}"%char r => Some (JObj [], r)
            | _ => '(d, r) ← read_fields n rest; Some (JObj d, r)
            end
          else if Ascii.eqb c "["%char then
            match skip_ws rest with
            | String "]"%char r => Some (JArr [], r)
            | _ => '(l, r) ← read_items n rest; Some (JArr l, r)
            end
          else if Ascii.eqb c quote then
            '(t, r) ← read_chars rest; Some (JStr t, r)
          else if Ascii.eqb c "-"%char then
            match rest with
            | String d _ =>
                match digit_value d with
                | Some _ => let '(z, r) := read_digits 0 rest in
                            Some (JNum (- z), r)
                | None => None
                end
            | EmptyString => None
            end
          else if starts_with "true" (String c rest)
            then Some (JBool true, str_drop 4 (String c rest))
          else if starts_with "false" (String c rest)
            then Some (JBool false, str_drop 5 (String c rest))
          else if starts_with "null" (String c rest)
            then Some (JNull, str_drop 4 (String c rest))
          else match digit_value c with
               | Some _ => let '(z, r) := read_digits 0 (String c rest) in
                           Some (JNum z, r)
               | None => None
               end
      | EmptyString => None
      end
  end
with read_items (fuel : nat) (s : string) : option (list json * string) :=
  match fuel with
  | O => None
  | S n =>
      '(v, r) ← read_value n s;
      match skip_ws r with
      | String ","%char r' => '(l, r'') ← read_items n r'; Some (v :: l, r'')
      | String "]"%char r' => Some ([v], r')
      | _ => None
      end
  end
with read_fields (fuel : nat) (s : string)
  : option (list (string * json) * string) :=
  match fuel with
  | O => None
  | S n =>
      match skip_ws s with
      | String c r0 =>
          if Ascii.eqb c quote then
            '(k, r1) ← read_chars r0;
            match skip_ws r1 with
            | String ":"%char r2 =>
                '(v, r3) ← read_value n r2;
                match skip_ws r3 with
                | String ","%char r4 =>
                    '(d, r5) ← read_fields n r4;
                    (* a repeated name keeps its last value *)
                    Some (match dict_get k d with
                          | Some _ => d
                          | None => (k, v) :: d
                          end, r5)
                | String "}"%char r4 => Some ([(k, v)], r4)
                | _ => None
                end
            | _ => None
            end
          else None
      | EmptyString => None
      end
  end.

Definition loads (s : string) : pyresult json :=
  match read_value (S (String.length s)) s with
  | Some (v, rest) =>
      match skip_ws rest with
      | EmptyString => OK v
      | _ => Err ValueError
      end
  | None => Err ValueError
  end.

Fixpoint write_chars (s : string) : option string :=
  match s with
  | EmptyString => Some EmptyString
  | String c s' =>
      t ← write_chars s';
      if Ascii.eqb c quote || Ascii.eqb c backslash
      then Some (String backslash (String c t))
      else if is_ascii_char c && (32 <=? nat_of_ascii c)%nat
      then Some (String c t)
      else None
  end.

Definition write_string (s : string) : option string :=
  t ← write_chars s; Some (String quote (t +:+ String quote EmptyString)).

Fixpoint sep_concat (l : list string) : string :=
  match l with
  | [] => EmptyString
  | [s] => s
  | s :: l' => s +:+ ", " +:+ sep_concat l'
  end.

Fixpoint write_value (v : json) : option string :=
  match v with
  | JNull => Some "null"
  | JBool true => Some "true"
  | JBool false => Some "false"
  | JNum n => Some (pretty n)
  | JStr s => write_string s
  | JArr l =>
      ts ← (fix items (l : list json) : option (list string) :=
             match l with
             | [] => Some []
             | x :: l' => t ← write_value x; ts ← items l'; Some (t :: ts)
             end) l;
      Some ("[" +:+ sep_concat ts +:+ "]")
  | JObj d =>
      ts ← (fix fields (d : list (string * json)) : option (list string) :=
             match d with
             | [] => Some []
             | (k, x) :: d' =>
                 kt ← write_string k; t ← write_value x; ts ← fields d';
                 Some ((kt +:+ ": " +:+ t) :: ts)
             end) d;
      Some ("{" +:+ sep_concat ts +:+ "}")
  end.

Definition dumps (v : json) : pyresult string :=
  match write_value v with
  | Some s => OK s
  | None => Err UnicodeDecodeError
  end.

(** [dumps] for a value known to be writable. *)
Definition text (v : json) : string :=
  match write_value v with
  | Some s => s
  | None => EmptyString
  end.

End Json.

(** ** Concrete configuration, runtime and environments *)

Definition cfg0 : Config :=
  mkConfig "prod" "av-status" "av-timestamp" (Some "arn:aws:sns:topic")
           "av-defs" "clamav_defs" true.

Definition lib0 : PyLib :=
  mkPyLib Json.loads Json.dumps (fun _ => "?").

(** Every collaborator answers; the scan engine reports an infection. *)
Definition env_ok : Env :=
  mkEnv (fun _ _ => None)
        (fun _ _ => ("INFECTED", "Eicar-Test-Signature"))
        (fun _ _ _ => ("text/plain", {["owner" := "ops"]}))
        (fun h => "2019/01/01 00:" +:+ pretty (10 + length h) +:+ ":00 UTC").

(** The definition update fails. *)
Definition env_defs_fail : Env :=
  mkEnv (fun _ c => match c with
                    | ClamavUpdateDefs _ _ => Some (ExternalError "clamav")
                    | _ => None
                    end)
        (env_scan_file env_ok) (env_head_object env_ok) (env_utcnow env_ok).

(** The metrics module raises. *)
Definition env_metrics_fail : Env :=
  mkEnv (fun _ c => match c with
                    | MetricsSend _ _ _ _ => Some (ExternalError "metrics")
                    | _ => None
                    end)
        (env_scan_file env_ok) (env_head_object env_ok) (env_utcnow env_ok).

(** The envelope of section 6 of the specification around a message. *)
Definition sns_record (message : json) : json :=
  JObj [("Sns", JObj [("Message", JStr (Json.text message))])].

Definition sns_event (message : json) : json :=
  JObj [("Records", JArr [sns_record message])].

Definition msg_full : json :=
  JObj [("bucket", JStr "b"); ("key", JStr "dir/eicar.txt");
        ("webhook", JStr "https://x/:service"); ("auth", JStr "tok")].

Definition msg_no_webhook : json :=
  JObj [("bucket", JStr "b"); ("key", JStr "clean.txt")].

Definition msg_no_bucket : json :=
  JObj [("key", JStr "clean.txt");
        ("webhook", JStr "https://x/:service"); ("auth", JStr "tok")].

Definition msg_plus_key : json :=
  JObj [("bucket", JStr "b"); ("key", JStr "a+b");
        ("webhook", JStr "https://x/:service"); ("auth", JStr "tok")].

Definition no_tags : json -> string -> list Tag := fun _ _ => [].

Definition world0 : World := mkWorld [] ∅ no_tags.

(** An object that carries a stale verdict and a tag of its owner. *)
Definition world_tagged : World :=
  mkWorld [] ∅
    (put_tags (JStr "b") "dir/eicar.txt"
       [mkTag "av-status" "CLEAN"; mkTag "team" "ops";
        mkTag "av-timestamp" "2018/12/31 23:59:59 UTC";
        mkTag "av-status" "CLEAN"]
       no_tags).

(** * Vocabulary of the statements *)

Local Open Scope list_scope.

(** A tag whose key is neither the status key nor the timestamp key. *)
Definition not_av (cfg : Config) (t : Tag) : Prop :=
  is_av_key cfg (Key t) = false.

Global Instance not_av_dec cfg t : Decision (not_av cfg t).
Proof. unfold not_av. apply _. Defined.

Definition has_key (k : string) (t : Tag) : Prop := Key t = k.

Global Instance has_key_dec k t : Decision (has_key k t).
Proof. unfold has_key. apply _. Defined.

(** The tag set written by lines 80-85. *)
Definition fresh_tags (cfg : Config) (curr_tags : list Tag)
    (result now : string) : list Tag :=
  filter (not_av cfg) curr_tags
  ++ [mkTag (AV_STATUS_METADATA cfg) result;
      mkTag (AV_TIMESTAMP_METADATA cfg) now].

(** The rewriting of the placeholder in line 41. *)
Definition rewrite_service (s : string) : string :=
  str_replace ":service" "antivirus" s.

(** The errors [event_object] raises on a message without a usable bucket
    or key: the subscript's [KeyError] for a missing field, the
    [AttributeError] of [.encode] on a value that is not a string, and the
    exception raised at line 35. *)
Inductive malformed_event_error : exn -> Prop :=
| missing_bucket : malformed_event_error (KeyError "bucket")
| missing_key : malformed_event_error (KeyError "key")
| key_not_text : malformed_event_error AttributeError
| empty_locator :
    malformed_event_error (PyException "Unable to retrieve object from event.").

(** A field that is absent, or present with a false truth value (the empty
    string, [None], ...). *)
Definition missing_or_empty (k : string) (d : list (string * json)) : Prop :=
  match dict_get k d with
  | None => True
  | Some v => truthy v = false
  end.

(** [wp m w Q]: the run of [m] from [w] ends in a world and a result that
    satisfy [Q]. *)
Definition wp {A} (m : M A) (w : World) (Q : World -> pyresult A -> Prop)
  : Prop :=
  Q (m w).1 (m w).2.

Definition is_post (c : Call) : bool :=
  match c with HttpPost _ _ _ => true | _ => false end.

Definition is_fetch_or_scan (c : Call) : bool :=
  match c with
  | S3DownloadFile _ _ _ | ClamavUpdateDefs _ _ | ClamavScanFile _ => true
  | _ => false
  end.

Definition is_scan (c : Call) : bool :=
  match c with ClamavScanFile _ => true | _ => false end.

Definition is_metrics (c : Call) : bool :=
  match c with MetricsSend _ _ _ _ => true | _ => false end.

Definition is_remove (c : Call) : bool :=
  match c with OsRemove _ => true | _ => false end.

(** The calls by which a sink hands the verdict to its collaborator. *)
Definition delivers_verdict (c : Call) : bool :=
  match c with
  | S3Copy _ _ _ _ | S3PutObjectTagging _ _ _ | SnsPublish _ _
  | HttpPatch _ _ _ | MetricsSend _ _ _ _ => true
  | _ => false
  end.

(** What a sink hands over when it is given the verdict [(status, output)]:
    the object's metadata with the status and then the timestamp written
    into it, the kept tags followed by the status and timestamp tags, the
    serialised message of lines 92-97, the body of lines 121-126, the
    status as the argument of the metrics call. *)
Definition built_from_verdict (lib : PyLib) (cfg : Config) (o : S3Object)
    (verdict : string * string) (c : Call) : Prop :=
  match c with
  | S3Copy _ _ _ metadata =>
      exists (old : gmap string string) now,
        metadata = <[AV_TIMESTAMP_METADATA cfg := now]>
                     (<[AV_STATUS_METADATA cfg := verdict.1]> old)
  | S3PutObjectTagging _ _ tagset =>
      exists curr_tags now, tagset = fresh_tags cfg curr_tags verdict.1 now
  | SnsPublish _ text =>
      exists now inner,
        json_dumps lib (JObj (sns_message cfg o verdict.1 now)) = OK inner
        /\ json_dumps lib (JObj [("default", JStr inner)]) = OK text
  | HttpPatch _ body _ => body = webhook_message o verdict.1 verdict.2
  | MetricsSend _ _ _ status => status = verdict.1
  | _ => True
  end.

(** What the collaborator reads back: the metadata maps the status key to
    the status, the tag set has the status as its one status tag, the
    published message maps the status key to the status, the infection flag
    of the webhook body tells whether the status is [INFECTED], the metrics
    call has the status as its argument. *)
Definition carries_status (lib : PyLib) (cfg : Config) (status : string)
    (c : Call) : Prop :=
  match c with
  | S3Copy _ _ _ metadata => metadata !! AV_STATUS_METADATA cfg = Some status
  | S3PutObjectTagging _ _ tagset =>
      filter (has_key (AV_STATUS_METADATA cfg)) tagset
      = [mkTag (AV_STATUS_METADATA cfg) status]
  | SnsPublish _ text =>
      exists message inner,
        dict_get (AV_STATUS_METADATA cfg) message = Some (JStr status)
        /\ json_dumps lib (JObj message) = OK inner
        /\ json_dumps lib (JObj [("default", JStr inner)]) = OK text
  | HttpPatch _ body _ =>
      exists fields,
        body = JObj fields
        /\ dict_get "is_infected" fields
           = Some (JBool (String.eqb status "INFECTED"))
  | MetricsSend _ _ _ s => s = status
  | _ => True
  end.

(** Lines 136-151: the handler once both decoders have returned. *)
Definition after_decoding (lib : PyLib) (cfg : Config) (env : Env)
    (s3_object : S3Object) (webhook : string) (auth : json) : M unit :=
  (webhook_scan_started env s3_object webhook auth >>
   let* file_path := download_s3_object lib env s3_object "/tmp" in
   external env (ClamavUpdateDefs (AV_DEFINITION_S3_BUCKET cfg)
                                  (AV_DEFINITION_S3_PREFIX cfg)) >>
   let* scan := clamav_scan_file env file_path in
   lift (scan_log_line s3_object scan.1) >>
   (if AV_UPDATE_METADATA cfg
    then set_av_metadata cfg env s3_object scan.1 else ret tt) >>
   set_av_tags cfg env s3_object scan.1 >>
   sns_scan_results lib cfg env s3_object scan.1 >>
   webhook_scan_results env s3_object scan.1 scan.2 webhook auth >>
   external env (MetricsSend (ENV cfg) (bucket_name s3_object) (key s3_object)
                             scan.1) >>
   except_OSError_pass (os_remove file_path))%M.

(** * Properties *)

(** ** The tag sink: the loop of lines 77-79 is a filter *)

Section TagSink.

Variable cfg : Config.

Lemma list_remove_skip (x : Tag) (pre rest : list Tag) :
  Forall (fun y => y <> x) pre ->
  list_remove x (pre ++ x :: rest) = Some (pre ++ rest).
Proof.
  induction 1 as [|y pre Hy _ IH]; simpl.
  - by rewrite decide_True.
  - by rewrite decide_False, IH.
Qed.

(** The loop invariant: the tags already visited and kept form [pre], the
    tags still to visit are a suffix of [new_tags]. *)
Lemma remove_av_tags_inv (rest pre : list Tag) :
  Forall (not_av cfg) pre ->
  remove_av_tags cfg rest (pre ++ rest) = OK (pre ++ filter (not_av cfg) rest).
Proof.
  revert pre. induction rest as [|t rest IH]; intros pre Hpre; simpl.
  - by rewrite filter_nil.
  - destruct (is_av_key cfg (Key t)) eqn:Hk.
    + rewrite list_remove_skip.
      * rewrite IH by done. by rewrite filter_cons_False by (unfold not_av; congruence).
      * eapply Forall_impl; [exact Hpre|]. unfold not_av. intros y Hy ->. congruence.
    + rewrite filter_cons_True by done.
      rewrite (cons_middle t pre rest), (cons_middle t pre), !app_assoc.
      apply IH. apply Forall_app; split; [done|]. by constructor.
Qed.

(** The loop never raises [ValueError], and keeps exactly the tags whose
    key is neither the status key nor the timestamp key, in order. *)
Lemma remove_av_tags_filter (curr_tags : list Tag) :
  remove_av_tags cfg curr_tags curr_tags = OK (filter (not_av cfg) curr_tags).
Proof. apply (remove_av_tags_inv curr_tags []). constructor. Qed.

End TagSink.

(** ** [str.replace]: no placeholder survives the rewriting of the URL *)

Lemma replace_from_skip (old new : string) (k : nat) (s : string) :
  replace_from old new k s = replace_from old new 0 (str_drop k s).
Proof.
  revert k. induction s as [|c s IH]; intros [|k]; simpl; done.
Qed.

Lemma starts_with_split (p s : string) :
  starts_with p s = true -> s = p +:+ str_drop (String.length p) s.
Proof.
  revert s. induction p as [|a p IH]; intros [|b s]; simpl; try done.
  intros [Hab Hp]%andb_prop. apply Ascii.eqb_eq in Hab as ->.
  change (String b s = String b (p +:+ str_drop (String.length p) s)).
  f_equal. by apply IH.
Qed.

Lemma length_append (p s : string) :
  String.length (p +:+ s) = String.length p + String.length s.
Proof.
  induction p as [|a p IH]; [reflexivity|].
  change (S (String.length (p +:+ s)) = S (String.length p + String.length s)).
  by rewrite IH.
Qed.

Lemma rewrite_service_match (s : string) :
  starts_with ":service" s = true ->
  exists rest, s = ":service" +:+ rest
            /\ rewrite_service s = "antivirus" +:+ rewrite_service rest.
Proof.
  intros H. exists (str_drop 8 s). split; [by apply starts_with_split in H|].
  destruct s as [|c s]; [done|].
  unfold rewrite_service, str_replace. cbn [replace_from]. rewrite H.
  by rewrite replace_from_skip.
Qed.

Lemma rewrite_service_copy (c : ascii) (s : string) :
  starts_with ":service" (String c s) = false ->
  rewrite_service (String c s) = String c (rewrite_service s).
Proof.
  intros H. unfold rewrite_service, str_replace. cbn [replace_from]. by rewrite H.
Qed.

Lemma starts_with_cons (a b : ascii) (p s : string) :
  starts_with (String a p) (String b s) = Ascii.eqb a b && starts_with p s.
Proof. reflexivity. Qed.

Lemma contains_cons (p : string) (c : ascii) (s : string) :
  contains p (String c s) = starts_with p (String c s) || contains p s.
Proof. reflexivity. Qed.

(** Text without the letter that opens [antivirus] is copied, never
    produced: if it opens the result it opens the source. *)
Lemma rewrite_service_reflects (u t : string) :
  contains "a" u = false ->
  starts_with u (rewrite_service t) = true -> starts_with u t = true.
Proof.
  revert t. induction u as [|c u IH]; intros t Hu; [done|].
  rewrite contains_cons, starts_with_cons in Hu.
  apply orb_false_elim in Hu as [Hc Hu].
  change (starts_with "" u) with true in Hc. rewrite andb_true_r in Hc.
  destruct t as [|d t]; [done|].
  destruct (starts_with ":service" (String d t)) eqn:Hm.
  - destruct (rewrite_service_match _ Hm) as (rest & _ & ->).
    change ("antivirus" +:+ rewrite_service rest)
      with (String "a" ("ntivirus" +:+ rewrite_service rest)).
    rewrite starts_with_cons, Ascii.eqb_sym, Hc. done.
  - rewrite rewrite_service_copy, !starts_with_cons by done.
    intros [-> Hr]%andb_prop. by rewrite (IH t Hu Hr).
Qed.

Lemma rewrite_service_no_placeholder (s : string) :
  contains ":service" (rewrite_service s) = false.
Proof.
  remember (String.length s) as n eqn:Hn.
  revert s Hn. induction (lt_wf n) as [n _ IH]; intros s ->.
  destruct s as [|c s]; [done|].
  destruct (starts_with ":service" (String c s)) eqn:Hm.
  - destruct (rewrite_service_match _ Hm) as (rest & Hs & ->).
    change (contains ":service" ("antivirus" +:+ rewrite_service rest))
      with (contains ":service" (rewrite_service rest)).
    eapply IH; [|reflexivity].
    rewrite Hs, length_append. simpl. lia.
  - rewrite rewrite_service_copy, contains_cons by done.
    apply orb_false_intro.
    + destruct (starts_with ":service" (String c (rewrite_service s))) eqn:Hr; [|done].
      rewrite starts_with_cons in Hr, Hm.
      apply andb_prop in Hr as [Hc Hr].
      apply (rewrite_service_reflects "service") in Hr; [|done].
      by rewrite Hc, Hr in Hm.
    + eapply IH; [|reflexivity]. simpl. lia.
Qed.

(** ** Decoding *)

Lemma dict_get_set_eq {V} (k : string) (v : V) (d : list (string * V)) :
  dict_get k (dict_set k v d) = Some v.
Proof.
  induction d as [|[k' v'] d IH]; simpl.
  - by rewrite decide_True.
  - destruct (decide (k' = k)) as [->|Hne]; simpl.
    + by rewrite decide_True.
    + by rewrite decide_False.
Qed.

Lemma dict_get_set_ne {V} (k k' : string) (v : V) (d : list (string * V)) :
  k <> k' -> dict_get k' (dict_set k v d) = dict_get k' d.
Proof.
  intros Hne. induction d as [|[j u] d IH]; simpl.
  - by rewrite decide_False.
  - destruct (decide (j = k)) as [->|Hj]; simpl.
    + by rewrite !decide_False.
    + by rewrite IH.
Qed.

Lemma replace_plus_nonempty (s : string) :
  str_replace "+" " " s = "" -> s = "".
Proof.
  destruct s as [|c s]; [done|].
  unfold str_replace. cbn [replace_from].
  by destruct (starts_with "+" (String c s)).
Qed.

Lemma replace_plus_id (s : string) :
  contains "+" s = false -> str_replace "+" " " s = s.
Proof.
  unfold str_replace. induction s as [|c s IH]; [done|].
  rewrite contains_cons. intros [Hc Hs]%orb_false_elim.
  cbn [replace_from]. rewrite Hc. f_equal. by apply IH.
Qed.

Lemma unquote_item_nonempty (item : string) : unquote_item item <> "".
Proof.
  unfold unquote_item. destruct item as [|a [|b rest]]; try done.
  by destruct (hex_value a), (hex_value b).
Qed.

Lemma append_nil_inv (a b : string) : a +:+ b = "" -> a = "" /\ b = "".
Proof. destruct a; [done|]. intros H. discriminate H. Qed.

Lemma unquote_nonempty (s : string) : unquote s = "" -> s = "".
Proof.
  unfold unquote. destruct (split_percent s) as [|b [|item items]]; try done.
  intros [_ H]%append_nil_inv. cbn [map str_concat] in H.
  apply append_nil_inv in H as [H _]. by apply unquote_item_nonempty in H.
Qed.

Lemma unquote_plus_nonempty (s : string) : s <> "" -> unquote_plus s <> "".
Proof.
  intros Hs H. apply Hs. unfold unquote_plus in H.
  by apply replace_plus_nonempty, unquote_nonempty.
Qed.

Lemma eqb_empty_false (s : string) : s <> "" -> String.eqb s "" = false.
Proof. intros H. by apply String.eqb_neq. Qed.

(** ** A plus sign in the key always shows in the decoded key *)

(** [c] after [replace('+', ' ')]. *)
Definition plus_to_space (c : ascii) : ascii :=
  if Ascii.eqb c "+" then " "%char else c.

Lemma replace_plus_cons (c : ascii) (s : string) :
  str_replace "+" " " (String c s)
  = String (plus_to_space c) (str_replace "+" " " s).
Proof.
  unfold str_replace, plus_to_space. cbn [replace_from].
  rewrite starts_with_cons. change (starts_with "" s) with true.
  rewrite andb_true_r, Ascii.eqb_sym. by destruct (Ascii.eqb c "+").
Qed.

Lemma replace_plus_fixed (s : string) :
  str_replace "+" " " s = s -> contains "+" s = false.
Proof.
  induction s as [|c s IH]; [done|].
  rewrite replace_plus_cons, contains_cons, starts_with_cons.
  change (starts_with "" s) with true. rewrite andb_true_r.
  intros [= Hc Hs]. rewrite (IH Hs), orb_false_r.
  unfold plus_to_space in Hc. rewrite Ascii.eqb_sym.
  destruct (Ascii.eqb_spec c "+") as [->|]; [discriminate Hc|done].
Qed.

Lemma replace_plus_length (s : string) :
  String.length (str_replace "+" " " s) = String.length s.
Proof.
  induction s as [|c s IH]; [done|].
  rewrite replace_plus_cons. cbn [String.length]. by rewrite IH.
Qed.

Lemma plus_to_space_percent (c : ascii) :
  Ascii.eqb (plus_to_space c) "%" = Ascii.eqb c "%".
Proof.
  unfold plus_to_space.
  by destruct (Ascii.eqb_spec c "+") as [->|].
Qed.

Lemma plus_to_space_hex (c : ascii) :
  hex_value (plus_to_space c) = hex_value c.
Proof.
  unfold plus_to_space.
  by destruct (Ascii.eqb_spec c "+") as [->|].
Qed.

Lemma plus_to_space_hex_digit (c : ascii) (n : nat) :
  hex_value c = Some n -> plus_to_space c = c.
Proof.
  unfold plus_to_space.
  by destruct (Ascii.eqb_spec c "+") as [->|].
Qed.

(** Replacing the plus signs neither creates nor removes a percent sign:
    the pieces of the replaced string are the replaced pieces. *)
Lemma split_percent_replace_plus (s : string) :
  split_percent (str_replace "+" " " s)
  = map (str_replace "+" " ") (split_percent s).
Proof.
  induction s as [|c s IH]; [done|].
  rewrite replace_plus_cons. cbn [split_percent].
  rewrite plus_to_space_percent, IH.
  destruct (Ascii.eqb_spec c "%") as [->|Hc]; [done|].
  destruct (split_percent s) as [|b bs]; cbn [map];
    by rewrite replace_plus_cons.
Qed.

Lemma split_percent_cons (s : string) :
  exists b bs, split_percent s = b :: bs.
Proof.
  induction s as [|c s (b & bs & IH)]; [by eexists _, _|].
  cbn [split_percent]. rewrite IH.
  destruct (Ascii.eqb c "%"); by eexists _, _.
Qed.

Lemma split_percent_inj (s t : string) :
  split_percent s = split_percent t -> s = t.
Proof.
  revert t. induction s as [|c s IH]; intros [|d t]; cbn [split_percent].
  - done.
  - destruct (split_percent_cons t) as (b & bs & ->).
    by destruct (Ascii.eqb d "%").
  - destruct (split_percent_cons s) as (b & bs & ->).
    by destruct (Ascii.eqb c "%").
  - destruct (split_percent_cons s) as (b & bs & Hs).
    destruct (split_percent_cons t) as (b' & bs' & Ht).
    destruct (Ascii.eqb_spec c "%") as [->|Hc],
             (Ascii.eqb_spec d "%") as [->|Hd].
    + intros [= H]. by rewrite (IH t H).
    + rewrite Ht. done.
    + rewrite Hs. done.
    + intros H. rewrite Hs, Ht in H. injection H as -> -> ->.
      f_equal. apply IH. by rewrite Hs, Ht.
Qed.

Lemma append_cons (c : ascii) (a b : string) :
  String c a +:+ b = String c (a +:+ b).
Proof. reflexivity. Qed.

Lemma append_inj_length (a a' b b' : string) :
  String.length a = String.length a' ->
  a +:+ b = a' +:+ b' -> a = a' /\ b = b'.
Proof.
  revert a'. induction a as [|c a IH]; intros [|c' a'] Hlen; try done.
  rewrite !append_cons. intros [= -> H].
  destruct (IH a') as [-> ->]; [by injection Hlen|done|done].
Qed.

(** One piece after a percent sign: its decoding has the same length with
    and without the replacement, and is the same only when the piece holds
    no plus sign. *)
Lemma unquote_item_replace_plus (item : string) :
  String.length (unquote_item (str_replace "+" " " item))
  = String.length (unquote_item item)
  /\ (unquote_item (str_replace "+" " " item) = unquote_item item ->
      str_replace "+" " " item = item).
Proof.
  destruct item as [|a [|b rest]].
  - done.
  - rewrite replace_plus_cons. split; [done|]. by intros [= ->].
  - rewrite !replace_plus_cons. unfold unquote_item.
    rewrite !plus_to_space_hex.
    destruct (hex_value a) as [h|] eqn:Ha;
      [destruct (hex_value b) as [l|] eqn:Hb|].
    all: cbn [String.length]; rewrite ?replace_plus_length; split; [done|].
    + rewrite (plus_to_space_hex_digit a h Ha),
        (plus_to_space_hex_digit b l Hb).
      intros [= H]. do 2 f_equal. exact H.
    + intros [= -> -> H]. do 2 f_equal. exact H.
    + intros [= -> -> H]. do 2 f_equal. exact H.
Qed.

Lemma str_concat_replace_plus (items : list string) :
  str_concat (map unquote_item (map (str_replace "+" " ") items))
  = str_concat (map unquote_item items) ->
  map (str_replace "+" " ") items = items.
Proof.
  induction items as [|i items IH]; [done|]. cbn [map str_concat].
  destruct (unquote_item_replace_plus i) as [Hlen Heq].
  intros [Hi Hrest]%append_inj_length; [|done].
  by rewrite (Heq Hi), (IH Hrest).
Qed.

(** The percent-decoding of a string differs from the percent-decoding of
    the string with its plus signs replaced, as soon as there is one. *)
Lemma unquote_plus_differs (s : string) :
  unquote (str_replace "+" " " s) = unquote s -> contains "+" s = false.
Proof.
  intros H. apply replace_plus_fixed.
  unfold unquote in H. rewrite split_percent_replace_plus in H.
  destruct (split_percent s) as [|b [|i items]] eqn:Hs; cbn [map] in H;
    [done..|].
  apply split_percent_inj. rewrite split_percent_replace_plus, Hs.
  apply append_inj_length in H as [Hb Hrest];
    [|apply replace_plus_length].
  cbn [map]. rewrite Hb. f_equal.
  by apply (str_concat_replace_plus (i :: items)).
Qed.

Section Decoding.

Variable lib : PyLib.



Lemma event_object_malformed (event : json) (d : list (string * json)) :
  event_message lib event = OK (JObj d) ->
  missing_or_empty "bucket" d \/ missing_or_empty "key" d ->
  exists e, event_object lib event = Err e /\ malformed_event_error e.
Proof.
  intros Hm H. unfold event_object. rewrite Hm. cbn [pbind getitem].
  unfold missing_or_empty in H.
  destruct (dict_get "bucket" d) as [b|]; [|eexists; split; [done|constructor]].
  destruct (dict_get "key" d) as [k|]; [|eexists; split; [done|constructor]].
  cbn [pbind].
  destruct k as [| | |raw| |]; cbn [encode_utf8 pbind];
    try (eexists; split; [done|constructor]).
  destruct H as [->|H]; [eexists; split; [done|constructor]|].
  cbn in H. apply negb_false_iff, String.eqb_eq in H as ->.
  rewrite orb_true_r. eexists; split; [done|constructor].
Qed.

Lemma event_object_valid (event : json) (d : list (string * json))
    (b : json) (raw : string) :
  event_message lib event = OK (JObj d) ->
  dict_get "bucket" d = Some b -> truthy b = true ->
  dict_get "key" d = Some (JStr raw) -> raw <> "" ->
  event_object lib event = OK (s3_Object b (unquote_plus raw)).
Proof.
  intros Hm Hb Ht Hk Hraw. unfold event_object.
  rewrite Hm. cbn [pbind getitem]. rewrite Hb, Hk. cbn [pbind encode_utf8].
  by rewrite Ht, (eqb_empty_false _ (unquote_plus_nonempty _ Hraw)).
Qed.

Lemma event_webhook_missing (event : json) (d : list (string * json)) :
  event_message lib event = OK (JObj d) ->
  dict_get "webhook" d = None ->
  event_webhook lib event = Err (KeyError "webhook").
Proof.
  intros Hm H. unfold event_webhook. rewrite Hm. cbn [pbind getitem].
  by rewrite H.
Qed.

(** A decoded webhook is never empty, and is the rewritten percent-decoding
    of the message's field. *)
Lemma event_webhook_decoded (event : json) (url : string) (auth : json) :
  event_webhook lib event = OK (url, auth) ->
  url <> "" /\
  exists message raw,
    event_message lib event = OK message
    /\ getitem message "webhook" = OK (JStr raw)
    /\ getitem message "auth" = OK auth
    /\ url = rewrite_service (unquote_plus raw).
Proof.
  unfold event_webhook.
  destruct (event_message lib event) as [m|]; [|done]. cbn [pbind].
  destruct (getitem m "webhook") as [[| | |raw| |]|] eqn:Hw; try done.
  cbn [pbind encode_utf8].
  destruct (getitem m "auth") as [a|] eqn:Ha; [|done]. cbn [pbind].
  destruct (String.eqb _ "") eqn:He; [done|].
  intros [= <- <-]. split.
  - by apply String.eqb_neq in He.
  - by exists m, raw.
Qed.

End Decoding.

(** ** Reasoning about runs: a weakest-precondition calculus for [M] *)

Section Runs.

Variable env : Env.

Lemma wp_run {A} (m : M A) (w : World) (Q : World -> pyresult A -> Prop) :
  wp m w Q -> forall w' r, m w = (w', r) -> Q w' r.
Proof. unfold wp. intros H w' r Hm. by rewrite Hm in H. Qed.

Lemma wp_bind {A B} (m : M A) (f : A -> M B) (w : World) Q :
  wp m w (fun w1 r => match r with
                      | OK a => wp (f a) w1 Q
                      | Err e => Q w1 (Err e)
                      end) ->
  wp (bind m f) w Q.
Proof. unfold wp, bind. by destruct (m w) as [w1 [a|e]]. Qed.

Lemma wp_ret {A} (a : A) (w : World) Q : Q w (OK a) -> wp (ret a) w Q.
Proof. done. Qed.

Lemma wp_lift {A} (r : pyresult A) (w : World) Q : Q w r -> wp (lift r) w Q.
Proof. done. Qed.

Lemma wp_external (c : Call) (w : World) Q :
  (forall e, env_fault env (calls w) c = Some e -> Q (record_call c w) (Err e)) ->
  (env_fault env (calls w) c = None -> Q (effect c (record_call c w)) (OK tt)) ->
  wp (external env c) w Q.
Proof.
  unfold wp, external. intros He Hok.
  destruct (env_fault env (calls w) c) as [e|]; simpl; auto.
Qed.

Lemma wp_utcnow (w : World) Q :
  (forall now, now = env_utcnow env (calls w) -> Q w (OK now)) ->
  wp (utcnow_strftime env) w Q.
Proof. intros H. by apply H. Qed.

Lemma wp_scan_file (path : string) (w : World) Q :
  (forall e, env_fault env (calls w) (ClamavScanFile path) = Some e ->
             Q (record_call (ClamavScanFile path) w) (Err e)) ->
  (forall verdict, verdict = env_scan_file env (calls w) path ->
                   Q (record_call (ClamavScanFile path) w) (OK verdict)) ->
  wp (clamav_scan_file env path) w Q.
Proof.
  unfold wp, clamav_scan_file. intros He Hok.
  destruct (env_fault env (calls w) _) as [e|]; simpl; auto.
Qed.

Lemma wp_load (o : S3Object) (w : World) Q :
  let c := S3HeadObject (bucket_name o) (key o) in
  (forall e, env_fault env (calls w) c = Some e -> Q (record_call c w) (Err e)) ->
  (forall head, Q (record_call c w) (OK head)) ->
  wp (s3_object_load env o) w Q.
Proof.
  intros c. unfold wp, s3_object_load. intros He Hok. fold c.
  destruct (env_fault env (calls w) _) as [e|]; simpl; auto.
Qed.

Lemma wp_get_tagging (b : json) (k : string) (w : World) Q :
  let c := S3GetObjectTagging b k in
  (forall e, env_fault env (calls w) c = Some e -> Q (record_call c w) (Err e)) ->
  (forall curr_tags, curr_tags = tagsets w b k ->
                     Q (record_call c w) (OK curr_tags)) ->
  wp (get_object_tagging env b k) w Q.
Proof.
  intros c. unfold wp, get_object_tagging. intros He Hok. fold c.
  destruct (env_fault env (calls w) _) as [e|]; simpl; auto.
Qed.

(** Line 148-151: the removal and its handler, as one step. *)
Lemma wp_remove_pass (path : string) (w : World) Q :
  (forall w', calls w' = calls w ++ [OsRemove path] ->
              files w' = files w ∖ {[path]} ->
              tagsets w' = tagsets w -> Q w' (OK tt)) ->
  wp (except_OSError_pass (os_remove path)) w Q.
Proof.
  unfold wp, except_OSError_pass, os_remove. intros H.
  destruct (decide (path ∈ files w)); simpl; apply H; simpl; try done.
  symmetry. apply difference_disjoint_L. by apply disjoint_singleton_r.
Qed.

End Runs.

(** One step of symbolic execution of a run. *)
Ltac wp_step :=
  lazymatch goal with
  | |- wp (bind _ _) _ _ => apply wp_bind
  | |- wp (ret _) _ _ => apply wp_ret
  | |- wp (lift _) _ _ => apply wp_lift
  | |- wp (external _ _) _ _ => apply wp_external; [intros ? ?|intros ?]
  | |- wp (utcnow_strftime _) _ _ => apply wp_utcnow; intros ? ?
  | |- wp (clamav_scan_file _ _) _ _ =>
      apply wp_scan_file; [intros ? ?|intros [? ?] ?]
  | |- wp (s3_object_load _ _) _ _ => apply wp_load; [intros ? ?|intros [? ?]]
  | |- wp (get_object_tagging _ _ _) _ _ =>
      apply wp_get_tagging; [intros ? ?|intros ? ?]
  | |- wp (except_OSError_pass _) _ _ => apply wp_remove_pass; intros ? ? ? ?
  | |- wp (if ?b then _ else _) _ _ =>
      first [ match goal with H : b = _ |- _ => rewrite H end
            | destruct b eqn:? ]
  | |- wp (match ?x with Some _ => _ | None => _ end) _ _ => destruct x eqn:?
  | |- match ?r with OK _ => _ | Err _ => _ end => destruct r eqn:?
  end.

Ltac wp_steps :=
  repeat (wp_step; cbn [effect record_call calls files tagsets fst snd] in * ).

Ltac unfold_handler :=
  unfold lambda_handler, webhook_scan_started, download_s3_object,
    set_av_metadata, set_av_tags, sns_scan_results, webhook_scan_results.

(** ** Decoding failures stop the handler before any call *)

Section HandlerDecoding.

Variable lib : PyLib.
Variable cfg : Config.
Variable env : Env.

Lemma lambda_handler_object_error (event : json) (e : exn) (w : World) :
  event_object lib event = Err e ->
  lambda_handler lib cfg env event w = (w, Err e).
Proof. intros H. unfold lambda_handler, bind, lift. by rewrite H. Qed.

Lemma lambda_handler_webhook_error (event : json) (o : S3Object) (e : exn)
    (w : World) :
  event_object lib event = OK o ->
  event_webhook lib event = Err e ->
  lambda_handler lib cfg env event w = (w, Err e).
Proof. intros Ho H. unfold lambda_handler, bind, lift. by rewrite Ho, H. Qed.

End HandlerDecoding.

(** C6.  When the decoded message has a missing or empty bucket, or a
    missing or empty key, [event_object] raises (a [KeyError] for a missing
    field, the exception of line 35 for an empty one), the handler raises
    the same exception, and the world is untouched: the handler has made no
    call to storage, to the scan engine or to a sink. *)
Theorem malformed_event_aborts_before_any_call
    (lib : PyLib) (cfg : Config) (env : Env) (event : json)
    (d : list (string * json)) (w : World) :
  event_message lib event = OK (JObj d) ->
  missing_or_empty "bucket" d \/ missing_or_empty "key" d ->
  exists e,
    event_object lib event = Err e
    /\ malformed_event_error e
    /\ lambda_handler lib cfg env event w = (w, Err e)
    /\ (dict_get "bucket" d = None -> e = KeyError "bucket")
    /\ (forall b raw, dict_get "bucket" d = Some b ->
                      dict_get "key" d = Some (JStr raw) ->
          e = PyException "Unable to retrieve object from event.").
Proof.
  intros Hm H.
  destruct (event_object_malformed lib event d Hm H) as (e & He & Hmal).
  exists e. split; [done|]. split; [done|].
  split; [by apply lambda_handler_object_error|].
  unfold event_object in He. rewrite Hm in He. cbn [pbind getitem] in He.
  split.
  - intros Hb. rewrite Hb in He. by injection He.
  - intros b raw Hb Hk. rewrite Hb, Hk in He. cbn [pbind encode_utf8] in He.
    destruct (negb (truthy b) || _); [by injection He|].
    exfalso. unfold missing_or_empty in H. rewrite Hb, Hk in H.
    unfold event_object in *. discriminate He.
Qed.

Lemma malformed_event_aborts_before_any_call_witness :
  exists e,
    event_object lib0 (sns_event msg_no_bucket) = Err e
    /\ malformed_event_error e
    /\ lambda_handler lib0 cfg0 env_ok (sns_event msg_no_bucket) world0
       = (world0, Err e)
    /\ (dict_get "bucket"
          [("key", JStr "clean.txt"); ("webhook", JStr "https://x/:service");
           ("auth", JStr "tok")] = None -> e = KeyError "bucket")
    /\ (forall b raw,
          dict_get "bucket"
            [("key", JStr "clean.txt"); ("webhook", JStr "https://x/:service");
             ("auth", JStr "tok")] = Some b ->
          dict_get "key"
            [("key", JStr "clean.txt"); ("webhook", JStr "https://x/:service");
             ("auth", JStr "tok")] = Some (JStr raw) ->
          e = PyException "Unable to retrieve object from event.").
Proof.
  apply (malformed_event_aborts_before_any_call lib0 cfg0 env_ok
           (sns_event msg_no_bucket) _ world0).
  - vm_compute. reflexivity.
  - left. vm_compute. exact I.
Defined.

(** C7 (counterexample).  For the key [a+b] the decoded request holds
    [a b], while the percent-decoding of [a+b] is [a+b] itself. *)
Lemma key_plus_is_not_percent_decoding :
  event_object lib0 (sns_event msg_plus_key) = OK (s3_Object (JStr "b") "a b")
  /\ unquote "a+b" = "a+b"
  /\ "a b" <> unquote "a+b".
Proof. vm_compute. split; [done|]. split; [done|]. discriminate. Qed.

(** C7 (amended).  For a message with a true bucket and a non-empty key
    string, the key of the decoded request is the percent-decoding of the
    key string in which every [+] has first been replaced by a space; it is
    the plain percent-decoding exactly when the key string holds no [+]. *)
Theorem decoded_key_is_unquote_plus
    (lib : PyLib) (event : json) (d : list (string * json)) (b : json)
    (raw : string) :
  event_message lib event = OK (JObj d) ->
  dict_get "bucket" d = Some b -> truthy b = true ->
  dict_get "key" d = Some (JStr raw) -> raw <> "" ->
  exists o,
    event_object lib event = OK o
    /\ bucket_name o = b
    /\ key o = unquote (str_replace "+" " " raw)
    /\ (key o = unquote raw <-> contains "+" raw = false).
Proof.
  intros Hm Hb Ht Hk Hraw. eexists. split.
  - by eapply event_object_valid.
  - cbn [bucket_name key]. split; [done|]. split; [done|]. split.
    + apply unquote_plus_differs.
    + intros Hplus. unfold unquote_plus. by rewrite replace_plus_id.
Qed.

Lemma decoded_key_is_unquote_plus_witness :
  exists o,
    event_object lib0 (sns_event msg_plus_key) = OK o
    /\ bucket_name o = JStr "b"
    /\ key o = unquote (str_replace "+" " " "a+b")
    /\ (key o = unquote "a+b" <-> contains "+" "a+b" = false).
Proof.
  apply (decoded_key_is_unquote_plus lib0 (sns_event msg_plus_key)
           [("bucket", JStr "b"); ("key", JStr "a+b");
            ("webhook", JStr "https://x/:service"); ("auth", JStr "tok")]).
  - vm_compute. reflexivity.
  - reflexivity.
  - reflexivity.
  - reflexivity.
  - discriminate.
Defined.

(** C2 (counterexample).  A message with a bucket and a key and no webhook
    field: the object decodes, the webhook does not, and the handler
    raises. *)
Lemma missing_webhook_raises :
  event_object lib0 (sns_event msg_no_webhook)
  = OK (s3_Object (JStr "b") "clean.txt")
  /\ event_webhook lib0 (sns_event msg_no_webhook) = Err (KeyError "webhook")
  /\ lambda_handler lib0 cfg0 env_ok (sns_event msg_no_webhook) world0
     = (world0, Err (KeyError "webhook")).
Proof. vm_compute. done. Qed.

(** C2 (amended).  For an event whose message has no webhook field,
    [event_webhook] raises [KeyError] and the handler, when the object
    decodes, raises it too before any call.  Both webhook sinks make no call
    and return normally when they are given the empty string as the
    webhook. *)
Theorem webhook_field_is_required
    (lib : PyLib) (cfg : Config) (env : Env) (event : json)
    (d : list (string * json)) (w : World) :
  event_message lib event = OK (JObj d) ->
  dict_get "webhook" d = None ->
  event_webhook lib event = Err (KeyError "webhook")
  /\ (forall o, event_object lib event = OK o ->
        lambda_handler lib cfg env event w = (w, Err (KeyError "webhook")))
  /\ (forall o auth, webhook_scan_started env o "" auth w = (w, OK tt))
  /\ (forall o result output auth,
        webhook_scan_results env o result output "" auth w = (w, OK tt)).
Proof.
  intros Hm Hw.
  pose proof (event_webhook_missing lib event d Hm Hw) as He.
  split; [done|]. split; [|done].
  intros o Ho. by eapply lambda_handler_webhook_error.
Qed.

Lemma webhook_field_is_required_witness :
  event_webhook lib0 (sns_event msg_no_webhook) = Err (KeyError "webhook")
  /\ (forall o, event_object lib0 (sns_event msg_no_webhook) = OK o ->
        lambda_handler lib0 cfg0 env_ok (sns_event msg_no_webhook) world0
        = (world0, Err (KeyError "webhook")))
  /\ (forall o auth, webhook_scan_started env_ok o "" auth world0 = (world0, OK tt))
  /\ (forall o result output auth,
        webhook_scan_results env_ok o result output "" auth world0
        = (world0, OK tt)).
Proof.
  apply (webhook_field_is_required lib0 cfg0 env_ok (sns_event msg_no_webhook)
           [("bucket", JStr "b"); ("key", JStr "clean.txt")] world0).
  - vm_compute. reflexivity.
  - reflexivity.
Defined.



(** ** The tag sink on the tag store *)

Section TagStore.

Variable cfg : Config.
Variable env : Env.

Lemma not_av_status (t : Tag) :
  not_av cfg t -> ~ has_key (AV_STATUS_METADATA cfg) t.
Proof.
  unfold not_av, is_av_key, has_key. intros H Hk.
  by rewrite Hk, bool_decide_eq_true_2 in H.
Qed.


Lemma filter_none {A} (P Q : A -> Prop) `{!forall x, Decision (P x)}
    `{!forall x, Decision (Q x)} (l : list A) :
  (forall x, Q x -> ~ P x) -> filter P (filter Q l) = [].
Proof.
  intros HQP. induction l as [|x l IH]; [done|].
  destruct (decide (Q x)) as [Hq|Hq].
  - rewrite (filter_cons_True Q) by done.
    rewrite filter_cons_False by (by apply HQP). done.
  - by rewrite (filter_cons_False Q) by done.
Qed.


Lemma fresh_tags_status (curr_tags : list Tag) (result now : string) :
  AV_STATUS_METADATA cfg <> AV_TIMESTAMP_METADATA cfg ->
  filter (has_key (AV_STATUS_METADATA cfg)) (fresh_tags cfg curr_tags result now)
  = [mkTag (AV_STATUS_METADATA cfg) result].
Proof.
  intros Hne. unfold fresh_tags.
  rewrite filter_app, filter_none by apply not_av_status.
  rewrite filter_cons_True by done.
  rewrite filter_cons_False by (unfold has_key; simpl; congruence).
  done.
Qed.





End TagStore.



(** ** [os.path.basename] *)

Lemma after_last_slash_spec (p : string) :
  match after_last_slash p with
  | Some t => (exists d, p = d +:+ "/" +:+ t) /\ contains "/" t = false
  | None => contains "/" p = false
  end.
Proof.
  induction p as [|c p IH]; [done|].
  cbn [after_last_slash]. destruct (after_last_slash p) as [t|].
  - destruct IH as [[d ->] Ht]. split; [|done]. by exists (String c d).
  - destruct (Ascii.eqb c "/") eqn:Hc.
    + apply Ascii.eqb_eq in Hc as ->. split; [|done]. by exists "".
    + rewrite contains_cons, starts_with_cons, Ascii.eqb_sym, Hc, IH. done.
Qed.

(** The base name is what follows the last slash: it holds no slash and is
    preceded by nothing or by a directory part that ends with a slash. *)
Lemma basename_spec (p : string) :
  contains "/" (basename p) = false
  /\ (p = basename p \/ exists d, p = d +:+ "/" +:+ basename p).
Proof.
  unfold basename. pose proof (after_last_slash_spec p) as H.
  destruct (after_last_slash p) as [t|].
  - destruct H as [[d ->] Ht]. split; [done|]. right. by exists d.
  - split; [done|]. by left.
Qed.

(** C9.  With a decoded (non-empty) webhook URL, [webhook_scan_results]
    makes exactly one call, a PATCH to that URL with the credential, whose
    body has [filename] the base name of the key, [status] the text
    [success], and for the verdict [INFECTED] [is_infected] true and
    [result] the text [INFECTED: ] followed by the diagnostic, for the
    verdicts [CLEAN] and [ERROR] [is_infected] false and [result] the text
    [clean]. *)
Theorem webhook_result_payload
    (env : Env) (o : S3Object) (output url : string) (auth : json) (w : World) :
  url <> "" ->
  let patch_body (is_infected : bool) (details : string) : json :=
    JObj [("filename", JStr (basename (key o)));
          ("is_infected", JBool is_infected);
          ("status", JStr "success");
          ("result", JStr details)] in
  calls (webhook_scan_results env o "INFECTED" output url auth w).1
  = calls w ++ [HttpPatch url (patch_body true ("INFECTED: " +:+ output)) auth]
  /\ calls (webhook_scan_results env o "CLEAN" output url auth w).1
     = calls w ++ [HttpPatch url (patch_body false "clean") auth]
  /\ calls (webhook_scan_results env o "ERROR" output url auth w).1
     = calls w ++ [HttpPatch url (patch_body false "clean") auth]
  /\ contains "/" (basename (key o)) = false
  /\ (key o = basename (key o)
      \/ exists d, key o = d +:+ "/" +:+ basename (key o)).
Proof.
  intros Hurl patch_body.
  unfold webhook_scan_results, external, webhook_message.
  rewrite (eqb_empty_false _ Hurl).
  repeat split; try apply basename_spec.
  all: cbn [String.eqb]; by destruct (env_fault env (calls w) _).
Qed.

Lemma webhook_result_payload_witness :
  calls (webhook_scan_results env_ok (s3_Object (JStr "b") "dir/eicar.txt")
           "INFECTED" "Eicar-Test-Signature" "https://x/antivirus"
           (JStr "tok") world0).1
  = [HttpPatch "https://x/antivirus"
       (JObj [("filename", JStr "eicar.txt"); ("is_infected", JBool true);
              ("status", JStr "success");
              ("result", JStr "INFECTED: Eicar-Test-Signature")])
       (JStr "tok")].
Proof.
  refine (eq_trans (proj1 (webhook_result_payload env_ok
            (s3_Object (JStr "b") "dir/eicar.txt") "Eicar-Test-Signature"
            "https://x/antivirus" (JStr "tok") world0 _)) _).
  - discriminate.
  - reflexivity.
Defined.

(** ** Runs of the handler *)

Lemma wp_trace_inv {A} (m : M A) (w : World)
    (P : list Call -> World -> pyresult A -> Prop)
    (w' : World) (r : pyresult A) (tr : list Call) :
  wp m w (fun w1 r1 => exists tr1, calls w1 = calls w ++ tr1 /\ P tr1 w1 r1) ->
  m w = (w', r) -> calls w' = calls w ++ tr -> P tr w' r.
Proof.
  intros Hwp Hrun Htr.
  destruct (wp_run m w _ Hwp w' r Hrun) as (tr1 & Htr1 & HP).
  rewrite Htr in Htr1. by apply app_inv_head in Htr1 as ->.
Qed.

Lemma wp_lambda_handler (lib : PyLib) (cfg : Config) (env : Env)
    (event : json) (w : World) (Q : World -> pyresult unit -> Prop) :
  (forall e, event_object lib event = Err e -> Q w (Err e)) ->
  (forall o e, event_object lib event = OK o ->
               event_webhook lib event = Err e -> Q w (Err e)) ->
  (forall o url auth,
     event_object lib event = OK o ->
     event_webhook lib event = OK (url, auth) ->
     String.eqb url "" = false ->
     wp (after_decoding lib cfg env o url auth) w Q) ->
  wp (lambda_handler lib cfg env event) w Q.
Proof.
  intros Hobj Hweb Hrun.
  change (lambda_handler lib cfg env event)
    with (bind (lift (event_object lib event)) (fun o =>
          bind (lift (event_webhook lib event)) (fun wa =>
          after_decoding lib cfg env o wa.1 wa.2))).
  apply wp_bind, wp_lift.
  destruct (event_object lib event) as [o|e] eqn:Ho; [|by apply Hobj].
  apply wp_bind, wp_lift.
  destruct (event_webhook lib event) as [[url auth]|e] eqn:Hw; [|by eapply Hweb].
  apply Hrun; [done..|].
  apply eqb_empty_false. by destruct (event_webhook_decoded _ _ _ _ Hw).
Qed.

Lemma sns_message_status (cfg : Config) (o : S3Object) (result now : string) :
  AV_STATUS_METADATA cfg <> AV_TIMESTAMP_METADATA cfg ->
  dict_get (AV_STATUS_METADATA cfg) (sns_message cfg o result now)
  = Some (JStr result).
Proof.
  intros Hne. unfold sns_message.
  rewrite dict_get_set_ne by done. apply dict_get_set_eq.
Qed.

Lemma metadata_status (cfg : Config) (metadata : gmap string string)
    (result now : string) :
  AV_STATUS_METADATA cfg <> AV_TIMESTAMP_METADATA cfg ->
  (<[AV_TIMESTAMP_METADATA cfg := now]>
     (<[AV_STATUS_METADATA cfg := result]> metadata))
  !! AV_STATUS_METADATA cfg = Some result.
Proof.
  intros Hne. rewrite lookup_insert_ne by done. apply lookup_insert_eq.
Qed.

(** The tag loop is replaced by its filter as soon as it is met. *)
Ltac wp_step_handler :=
  lazymatch goal with
  | |- match remove_av_tags _ ?c ?c with _ => _ end =>
      rewrite remove_av_tags_filter
  | _ => wp_step
  end.

Ltac wp_steps_handler :=
  repeat (wp_step_handler;
          cbn [effect record_call calls files tagsets fst snd] in * ).

(** The calls of the final world, as the initial ones followed by an
    explicit list. *)
Ltac norm_trace :=
  try match goal with H : calls _ = _ |- _ => rewrite H in * end;
  rewrite <- ?app_assoc in *; cbn [app] in *.

Ltac trace_exists :=
  eexists; split; [first [reflexivity | symmetry; apply app_nil_r]|].

(** Every way a run of the handler can end, each with its explicit trace. *)
Ltac run_handler :=
  apply wp_lambda_handler;
  [ intros ? ?; trace_exists
  | intros ? ? ? ?; trace_exists
  | intros ? ? ? ? ? ?; unfold after_decoding; unfold_handler;
    wp_steps_handler; norm_trace; trace_exists ].

(** Every way to cut an explicit trace around one call. *)
Ltac enum_split H :=
  lazymatch type of H with
  | [] = _ => destruct (app_cons_not_nil _ _ _ H)
  | _ :: _ = ?pre ++ _ :: _ =>
      destruct pre as [|? pre]; cbn [app] in H;
      [ try discriminate H; injection H as ?; simplify_eq
      | injection H as ? H; subst; enum_split H ]
  end.

(** Reduce a statement about a run and its trace to a goal of the
    calculus. *)
Ltac by_wp Hrun Htr :=
  lazymatch type of Htr with
  | calls ?w' = calls ?w ++ ?tr =>
      lazymatch type of Hrun with
      | ?m w = (w', ?res) =>
          pattern tr, w', res;
          lazymatch goal with
          | |- ?P tr w' res =>
              refine (wp_trace_inv m w P w' res tr _ Hrun Htr);
              clear Hrun Htr; try clear w' res tr
          end
      end
  end.

Ltac verdict_built :=
  lazymatch goal with
  | |- True => exact I
  | |- exists (_ : gmap string string) _, _ => by eexists _, _
  | |- exists (_ : list Tag) _, _ => by eexists _, _
  | |- exists (_ : string) _, _ => by eexists _, _
  | |- _ => reflexivity
  end.

(** With different status and timestamp keys, what a sink builds from the
    verdict reads back as the status. *)
Lemma built_carries_status (lib : PyLib) (cfg : Config) (o : S3Object)
    (verdict : string * string) (c : Call) :
  AV_STATUS_METADATA cfg <> AV_TIMESTAMP_METADATA cfg ->
  built_from_verdict lib cfg o verdict c ->
  carries_status lib cfg verdict.1 c.
Proof.
  intros Hne. destruct c; cbn [built_from_verdict carries_status]; try done.
  - intros ->. by eexists.
  - intros (old & now & ->). by apply metadata_status.
  - intros (curr_tags & now & ->). by apply fresh_tags_status.
  - intros (now & inner & Hinner & Houter).
    exists (sns_message cfg o verdict.1 now), inner.
    split; [by apply sns_message_status|done].
Qed.

(** C5.  In every run of the handler the scan engine is asked at most once,
    and exactly once when a sink delivers anything; no sink delivers before
    the scan, and every call made after it is built from the verdict the
    engine returned to that one request, with the status string unchanged:
    by the metadata sink, the tag sink, the topic sink, the webhook-result
    sink and the metrics sink alike.  When the status key and the timestamp
    key of the configuration differ, each of these calls reads back as that
    status. *)
Theorem verdict_consistency
    (lib : PyLib) (cfg : Config) (env : Env) (event : json)
    (w w' : World) (res : pyresult unit) (tr : list Call) :
  lambda_handler lib cfg env event w = (w', res) ->
  calls w' = calls w ++ tr ->
  length (List.filter is_scan tr) <= 1
  /\ (existsb delivers_verdict tr = true ->
      length (List.filter is_scan tr) = 1)
  /\ forall pre p post,
       tr = pre ++ ClamavScanFile p :: post ->
       let verdict := env_scan_file env (calls w ++ pre) p in
       exists o,
         event_object lib event = OK o
         /\ Forall (fun c => delivers_verdict c = false) pre
         /\ Forall (built_from_verdict lib cfg o verdict) post
         /\ (AV_STATUS_METADATA cfg <> AV_TIMESTAMP_METADATA cfg ->
             Forall (carries_status lib cfg verdict.1) post).
Proof.
  intros Hrun Htr.
  cut (length (List.filter is_scan tr) <= 1
       /\ (existsb delivers_verdict tr = true ->
           length (List.filter is_scan tr) = 1)
       /\ forall pre p post,
            tr = pre ++ ClamavScanFile p :: post ->
            exists o,
              event_object lib event = OK o
              /\ Forall (fun c => delivers_verdict c = false) pre
              /\ Forall (built_from_verdict lib cfg o
                           (env_scan_file env (calls w ++ pre) p)) post).
  { intros (Hone & Hsome & Hall). split; [done|]. split; [done|].
    intros pre p post Hsplit verdict.
    destruct (Hall pre p post Hsplit) as (o & Ho & Hpre & Hpost).
    exists o. split; [done|]. split; [done|]. split; [done|].
    intros Hne. eapply Forall_impl; [exact Hpost|].
    intros c. by apply built_carries_status. }
  by_wp Hrun Htr. run_handler.
  all: (split; [cbn; lia|]).
  all: (split; [cbn; first [done | discriminate]|]).
  all: intros pre p' post Hsplit; enum_split Hsplit.
  all: eexists; split; [eassumption|]; split; [repeat constructor|].
  all: try match goal with
           | H : (_, _) = env_scan_file _ _ _ |- _ => rewrite <- H
           end.
  all: repeat first [ apply List.Forall_nil
                    | apply List.Forall_cons;
                      [cbn [built_from_verdict fst snd]|] ].
  all: verdict_built.
Qed.

Lemma verdict_consistency_witness :
  length (List.filter is_scan
            (calls (lambda_handler lib0 cfg0 env_ok (sns_event msg_full)
                      world0).1)) <= 1
  /\ forall pre p post,
       calls (lambda_handler lib0 cfg0 env_ok (sns_event msg_full) world0).1
       = pre ++ ClamavScanFile p :: post ->
       let verdict := env_scan_file env_ok (calls world0 ++ pre) p in
       exists o,
         event_object lib0 (sns_event msg_full) = OK o
         /\ Forall (fun c => delivers_verdict c = false) pre
         /\ Forall (built_from_verdict lib0 cfg0 o verdict) post
         /\ (AV_STATUS_METADATA cfg0 <> AV_TIMESTAMP_METADATA cfg0 ->
             Forall (carries_status lib0 cfg0 verdict.1) post).
Proof.
  destruct (lambda_handler lib0 cfg0 env_ok (sns_event msg_full) world0)
    as [w' res] eqn:Hrun.
  pose proof (verdict_consistency lib0 cfg0 env_ok (sns_event msg_full) world0
                w' res (calls w') Hrun eq_refl)
    as (Hone & _ & Hall).
  split; [exact Hone|exact Hall].
Defined.

(** C4 (counterexample).  The metrics module raises: the handler raises the
    same exception, [os.remove] is never called and the downloaded file is
    still on disk. *)
Lemma metrics_failure_is_fatal :
  (lambda_handler lib0 cfg0 env_metrics_fail (sns_event msg_full) world0).2
  = Err (ExternalError "metrics")
  /\ existsb is_metrics
       (calls (lambda_handler lib0 cfg0 env_metrics_fail
                 (sns_event msg_full) world0).1) = true
  /\ existsb is_remove
       (calls (lambda_handler lib0 cfg0 env_metrics_fail
                 (sns_event msg_full) world0).1) = false
  /\ "/tmp/b/dir/eicar.txt"
     ∈ files (lambda_handler lib0 cfg0 env_metrics_fail
                (sns_event msg_full) world0).1.
Proof. repeat split; vm_compute; reflexivity. Qed.

(** C4 (amended).  The metrics call is made on every normal return of the
    handler, as the last call before the removal of the local file.
    Wherever it occurs in a run it comes after the scan, with the
    environment tag, the bucket and key of the decoded object and the status
    the scan returned, and no metrics call precedes it.  It is not
    protected: when it raises, the handler raises the same exception and
    makes no further call, so the removal of the local file is skipped; when
    it returns, the removal follows and the handler returns normally. *)
Theorem metrics_sink_last_and_unprotected
    (lib : PyLib) (cfg : Config) (env : Env) (event : json)
    (w w' : World) (res : pyresult unit) (tr : list Call) :
  lambda_handler lib cfg env event w = (w', res) ->
  calls w' = calls w ++ tr ->
  (res = OK tt ->
     exists e b k s p, [MetricsSend e b k s; OsRemove p] `suffix_of` tr)
  /\ forall pre e b k s post,
       tr = pre ++ MetricsSend e b k s :: post ->
       (exists o pre1 p pre2,
          event_object lib event = OK o
          /\ e = ENV cfg /\ b = bucket_name o /\ k = key o
          /\ pre = pre1 ++ ClamavScanFile p :: pre2
          /\ s = (env_scan_file env (calls w ++ pre1) p).1)
       /\ Forall (fun c => is_metrics c = false) pre
       /\ (forall ex,
             env_fault env (calls w ++ pre) (MetricsSend e b k s) = Some ex ->
             res = Err ex /\ post = [])
       /\ (env_fault env (calls w ++ pre) (MetricsSend e b k s) = None ->
           res = OK tt /\ exists p, post = [OsRemove p]).
Proof.
  intros Hrun Htr. by_wp Hrun Htr. run_handler.
  all: (split; [intros Hres; try discriminate Hres|]).
  all: try (intros pre e' b' k' s' post Hsplit; enum_split Hsplit).
  all: try (split;
            [|split; [repeat constructor
                     |split; [intros; split; congruence
                             |intros; split;
                              first [congruence | eexists; reflexivity]]]]).
  all: try (eexists _, [_; _; _; _], _, _; split; [eassumption|];
            repeat (split; [reflexivity|]);
            match goal with
            | H : (_, _) = env_scan_file _ _ _ |- _ => by rewrite <- H
            end).
  all: do 5 eexists; repeat first [reflexivity | apply suffix_cons_r].
Qed.

Lemma metrics_sink_last_and_unprotected_witness :
  exists e b k s p,
    [MetricsSend e b k s; OsRemove p]
    `suffix_of` calls (lambda_handler lib0 cfg0 env_ok (sns_event msg_full)
                         world0).1.
Proof.
  assert (Hres : (lambda_handler lib0 cfg0 env_ok (sns_event msg_full)
                    world0).2 = OK tt) by (vm_compute; reflexivity).
  destruct (lambda_handler lib0 cfg0 env_ok (sns_event msg_full) world0)
    as [w' res] eqn:Hrun.
  exact (proj1 (metrics_sink_last_and_unprotected lib0 cfg0 env_ok
                  (sns_event msg_full) world0 w' res (calls w') Hrun eq_refl)
               Hres).
Defined.

(** C1 (counterexample).  The definition update raises after the fetch
    step has created the local file: the handler raises and the file is
    still on disk. *)
Lemma artifact_left_when_update_fails :
  (lambda_handler lib0 cfg0 env_defs_fail (sns_event msg_full) world0).2
  = Err (ExternalError "clamav")
  /\ calls (lambda_handler lib0 cfg0 env_defs_fail
               (sns_event msg_full) world0).1
     = [HttpPost "https://x/antivirus" (JObj []) (JStr "tok");
        CreateDir "/tmp/b/dir";
        S3DownloadFile (JStr "b") "dir/eicar.txt" "/tmp/b/dir/eicar.txt";
        ClamavUpdateDefs "av-defs" "clamav_defs"]
  /\ "/tmp/b/dir/eicar.txt"
     ∈ files (lambda_handler lib0 cfg0 env_defs_fail
                (sns_event msg_full) world0).1.
Proof. repeat split; vm_compute; reflexivity. Qed.

(** C1 (amended).  When the handler returns normally, the path of the local
    file that the fetch step downloaded does not exist on disk (a file that
    was already gone at removal time is tolerated).  When the handler
    raises, it has not called [os.remove], it has deleted nothing, and a
    file whose download succeeded is still on disk. *)
Theorem cleanup_only_on_normal_return
    (lib : PyLib) (cfg : Config) (env : Env) (event : json)
    (w w' : World) (res : pyresult unit) (tr : list Call) :
  lambda_handler lib cfg env event w = (w', res) ->
  calls w' = calls w ++ tr ->
  (res = OK tt ->
     exists o p,
       event_object lib event = OK o
       /\ local_path_of lib "/tmp" o = OK p
       /\ S3DownloadFile (bucket_name o) (key o) p ∈ tr
       /\ p ∉ files w')
  /\ (forall e, res = Err e ->
        Forall (fun c => is_remove c = false) tr
        /\ files w ⊆ files w'
        /\ forall pre b k p post,
             tr = pre ++ S3DownloadFile b k p :: post ->
             env_fault env (calls w ++ pre) (S3DownloadFile b k p) = None ->
             p ∈ files w').
Proof.
  intros Hrun Htr. by_wp Hrun Htr. run_handler.
  all: (split; [intros Hres; try discriminate Hres
               |intros ex Hres; try discriminate Hres]).
  all: try (split; [repeat constructor
                   |split; [cbn [files];
                            first [reflexivity | apply union_subseteq_r]|]]).
  all: try (intros pre b' k' p' post Hsplit Hok; enum_split Hsplit;
            cbn [files]; first [congruence | apply elem_of_union_l;
                                             by apply elem_of_singleton]).
  all: eexists _, _; split; [eassumption|]; split; [eassumption|].
  all: split; [repeat first [apply list_elem_of_here | apply list_elem_of_further]|].
  all: match goal with H : files _ = _ |- _ => rewrite H end.
  all: apply not_elem_of_difference; right; by apply elem_of_singleton.
Qed.

Lemma cleanup_only_on_normal_return_witness :
  exists o p,
    event_object lib0 (sns_event msg_full) = OK o
    /\ local_path_of lib0 "/tmp" o = OK p
    /\ S3DownloadFile (bucket_name o) (key o) p
       ∈ calls (lambda_handler lib0 cfg0 env_ok (sns_event msg_full) world0).1
    /\ p ∉ files (lambda_handler lib0 cfg0 env_ok (sns_event msg_full)
                    world0).1.
Proof.
  assert (Hres : (lambda_handler lib0 cfg0 env_ok (sns_event msg_full)
                    world0).2 = OK tt) by (vm_compute; reflexivity).
  destruct (lambda_handler lib0 cfg0 env_ok (sns_event msg_full) world0)
    as [w' res] eqn:Hrun.
  exact (proj1 (cleanup_only_on_normal_return lib0 cfg0 env_ok
                  (sns_event msg_full) world0 w' res (calls w') Hrun eq_refl)
               Hres).
Defined.

(** C8.  When both decoders return, the first call of the handler is the
    POST of an empty payload to the decoded URL with the decoded
    credential, and it is the only POST: the download of the object, the
    definition update and the scan, when they happen, come after it.  The
    URL is the percent-decoded webhook field with every [:service] replaced
    by [antivirus], and holds no [:service] any more. *)
Theorem webhook_start_precedes_fetch_and_scan
    (lib : PyLib) (cfg : Config) (env : Env) (event : json)
    (w w' : World) (res : pyresult unit) (tr : list Call)
    (o : S3Object) (url : string) (auth : json) :
  event_object lib event = OK o ->
  event_webhook lib event = OK (url, auth) ->
  lambda_handler lib cfg env event w = (w', res) ->
  calls w' = calls w ++ tr ->
  (exists rest,
     tr = HttpPost url (JObj []) auth :: rest
     /\ Forall (fun c => is_post c = false) rest)
  /\ (forall pre c post,
        tr = pre ++ c :: post -> is_fetch_or_scan c = true ->
        HttpPost url (JObj []) auth ∈ pre)
  /\ (exists message raw,
        event_message lib event = OK message
        /\ getitem message "webhook" = OK (JStr raw)
        /\ getitem message "auth" = OK auth
        /\ url = str_replace ":service" "antivirus" (unquote_plus raw))
  /\ contains ":service" url = false.
Proof.
  intros Ho Hw Hrun Htr.
  destruct (event_webhook_decoded lib event url auth Hw)
    as (_ & message & raw & Hm & Hraw & Hauth & Hurl).
  assert (Hfirst : exists rest,
             tr = HttpPost url (JObj []) auth :: rest
             /\ Forall (fun c => is_post c = false) rest).
  { by_wp Hrun Htr. run_handler.
    all: try congruence.
    all: match goal with
         | H : event_webhook _ _ = OK _ |- _ =>
             rewrite Hw in H; injection H as <- <-
         end.
    all: eexists; split; [reflexivity|repeat constructor]. }
  split; [exact Hfirst|].
  split; [|split; [by exists message, raw|]].
  - destruct Hfirst as (rest & -> & _).
    intros [|c0 pre] c post Hsplit Hc; cbn [app] in Hsplit.
    + injection Hsplit as <- _. discriminate Hc.
    + injection Hsplit as <- _. apply list_elem_of_here.
  - rewrite Hurl. apply rewrite_service_no_placeholder.
Qed.

Lemma webhook_start_precedes_fetch_and_scan_witness :
  (exists rest,
     calls (lambda_handler lib0 cfg0 env_ok (sns_event msg_full) world0).1
     = HttpPost "https://x/antivirus" (JObj []) (JStr "tok") :: rest
     /\ Forall (fun c => is_post c = false) rest)
  /\ contains ":service" "https://x/antivirus" = false.
Proof.
  destruct (lambda_handler lib0 cfg0 env_ok (sns_event msg_full) world0)
    as [w' res] eqn:Hrun.
  pose proof (webhook_start_precedes_fetch_and_scan lib0 cfg0 env_ok
                (sns_event msg_full) world0 w' res (calls w')
                (s3_Object (JStr "b") "dir/eicar.txt")
                "https://x/antivirus" (JStr "tok")
                ltac:(vm_compute; reflexivity) ltac:(vm_compute; reflexivity)
                Hrun eq_refl)
    as (Hfirst & _ & _ & Hclean).
  split; [exact Hfirst|exact Hclean].
Defined.

(** ** Concrete runs *)

Example unquote_plus_mixed :
  unquote_plus "a+b%2Bc%zz%4%41%%41%e" = "a b+c%zz%4A%A%e".
Proof. vm_compute. reflexivity. Qed.

Example event_webhook_rewrites_placeholder :
  event_webhook lib0 (sns_event msg_full)
  = OK ("https://x/antivirus", JStr "tok").
Proof. vm_compute. reflexivity. Qed.

(** Two runs of the tag sink on an object that carried two stale status
    tags and one stale timestamp tag. *)
Example set_av_tags_twice :
  let o := s3_Object (JStr "b") "dir/eicar.txt" in
  tagsets (set_av_tags cfg0 env_ok o "INFECTED"
             (set_av_tags cfg0 env_ok o "CLEAN" world_tagged).1).1
    (JStr "b") "dir/eicar.txt"
  = [mkTag "team" "ops"; mkTag "av-status" "INFECTED";
     mkTag "av-timestamp" "2019/01/01 00:13:00 UTC"].
Proof. vm_compute. reflexivity. Qed.

(** The whole pipeline on the infected object of scenario B. *)
Example lambda_handler_infected_run :
  let run := lambda_handler lib0 cfg0 env_ok (sns_event msg_full) world0 in
  run.2 = OK tt
  /\ List.map (fun c => match c with
                        | HttpPatch url body _ => Some (url, body)
                        | _ => None
                        end) (List.filter delivers_verdict (calls run.1))
     = [None; None; None;
        Some ("https://x/antivirus",
              JObj [("filename", JStr "eicar.txt"); ("is_infected", JBool true);
                    ("status", JStr "success");
                    ("result", JStr "INFECTED: Eicar-Test-Signature")]);
        None].
Proof. vm_compute. split; reflexivity. Qed.

(** * Further properties *)

(** ** The envelope *)

(** X1.  An error met while reading the message out of the envelope
    (a missing field, a value of the wrong type, text that [json.loads]
    rejects) is raised by both decoders, and by the handler from an
    untouched world: no call is made. *)
Theorem envelope_errors_abort
    (lib : PyLib) (cfg : Config) (env : Env) (event : json) (e : exn)
    (w : World) :
  event_message lib event = Err e ->
  event_object lib event = Err e
  /\ event_webhook lib event = Err e
  /\ lambda_handler lib cfg env event w = (w, Err e).
Proof.
  intros Hm.
  assert (Ho : event_object lib event = Err e)
    by (unfold event_object; by rewrite Hm).
  split; [done|]. split; [unfold event_webhook; by rewrite Hm|].
  by apply lambda_handler_object_error.
Qed.

Lemma envelope_errors_abort_witness :
  event_object lib0 (JObj [("Records", JArr [JObj [("Sns", JObj [])]])])
  = Err (KeyError "Message")
  /\ event_webhook lib0 (JObj [("Records", JArr [JObj [("Sns", JObj [])]])])
     = Err (KeyError "Message")
  /\ lambda_handler lib0 cfg0 env_ok
       (JObj [("Records", JArr [JObj [("Sns", JObj [])]])]) world0
     = (world0, Err (KeyError "Message")).
Proof.
  apply (envelope_errors_abort lib0 cfg0 env_ok
           (JObj [("Records", JArr [JObj [("Sns", JObj [])]])])
           (KeyError "Message") world0).
  reflexivity.
Defined.

(** X2.  The errors of line 30: a missing [Records], [Sns] or [Message]
    field raises the [KeyError] of that field, a [Message] that is not a
    string raises [TypeError], and a string is handed to [json.loads], whose
    result or error is the result. *)
Theorem envelope_error_cases
    (lib : PyLib) (d : list (string * json)) :
  (dict_get "Records" d = None ->
   event_message lib (JObj d) = Err (KeyError "Records"))
  /\ (forall r rest,
        dict_get "Records" d = Some (JArr (JObj r :: rest)) ->
        (dict_get "Sns" r = None ->
         event_message lib (JObj d) = Err (KeyError "Sns"))
        /\ (forall sns,
              dict_get "Sns" r = Some (JObj sns) ->
              (dict_get "Message" sns = None ->
               event_message lib (JObj d) = Err (KeyError "Message"))
              /\ (forall text,
                    dict_get "Message" sns = Some (JStr text) ->
                    event_message lib (JObj d) = json_loads lib text)
              /\ (forall v,
                    dict_get "Message" sns = Some v ->
                    (forall text, v <> JStr text) ->
                    event_message lib (JObj d) = Err TypeError))).
Proof.
  unfold event_message. cbn [getitem]. split.
  - by intros ->.
  - intros r rest ->. cbn [pbind getitem0 getitem]. split.
    + by intros ->.
    + intros sns ->. cbn [pbind getitem]. split; [by intros ->|]. split.
      * by intros text ->.
      * intros v -> Hv. cbn [pbind]. destruct v; try done. by destruct (Hv s).
Qed.


(** ** The webhook decoder *)

Lemma rewrite_service_nonempty (s : string) :
  s <> "" -> rewrite_service s <> "".
Proof.
  destruct s as [|c s]; [done|]. intros _.
  destruct (starts_with ":service" (String c s)) eqn:Hm.
  - by destruct (rewrite_service_match _ Hm) as (rest & _ & ->).
  - by rewrite rewrite_service_copy.
Qed.

(** X3.  A message with a non-empty webhook string and an auth field
    always decodes: the URL is the percent-decoded field with the
    placeholder replaced, it is not empty, and the credential is the auth
    field as it is. *)
Theorem event_webhook_accepts
    (lib : PyLib) (event : json) (d : list (string * json)) (raw : string)
    (auth : json) :
  event_message lib event = OK (JObj d) ->
  dict_get "webhook" d = Some (JStr raw) -> raw <> "" ->
  dict_get "auth" d = Some auth ->
  event_webhook lib event
  = OK (str_replace ":service" "antivirus" (unquote_plus raw), auth)
  /\ str_replace ":service" "antivirus" (unquote_plus raw) <> "".
Proof.
  intros Hm Hw Hraw Ha.
  assert (Hurl : rewrite_service (unquote_plus raw) <> "")
    by by apply rewrite_service_nonempty, unquote_plus_nonempty.
  unfold rewrite_service in Hurl. split; [|exact Hurl].
  unfold event_webhook. rewrite Hm. cbn [pbind getitem].
  rewrite Hw, Ha. cbn [pbind encode_utf8].
  by rewrite (eqb_empty_false _ Hurl).
Qed.

Lemma event_webhook_accepts_witness :
  event_webhook lib0 (sns_event msg_full)
  = OK (str_replace ":service" "antivirus" (unquote_plus "https://x/:service"),
        JStr "tok")
  /\ str_replace ":service" "antivirus" (unquote_plus "https://x/:service")
     <> "".
Proof.
  apply (event_webhook_accepts lib0 (sns_event msg_full)
           [("bucket", JStr "b"); ("key", JStr "dir/eicar.txt");
            ("webhook", JStr "https://x/:service"); ("auth", JStr "tok")]).
  - vm_compute. reflexivity.
  - reflexivity.
  - discriminate.
  - reflexivity.
Defined.

(** X4.  What [event_webhook] refuses: an empty webhook string raises the
    exception of line 45, a missing auth field raises [KeyError] (before
    the webhook is looked at for emptiness), a webhook that is not a string
    raises [AttributeError]. *)
Theorem event_webhook_rejects
    (lib : PyLib) (event : json) (d : list (string * json)) :
  event_message lib event = OK (JObj d) ->
  (forall auth,
     dict_get "webhook" d = Some (JStr "") -> dict_get "auth" d = Some auth ->
     event_webhook lib event
     = Err (PyException "Unable to retrieve webhook from event."))
  /\ (forall raw,
        dict_get "webhook" d = Some (JStr raw) -> dict_get "auth" d = None ->
        event_webhook lib event = Err (KeyError "auth"))
  /\ (forall v,
        dict_get "webhook" d = Some v -> (forall raw, v <> JStr raw) ->
        event_webhook lib event = Err AttributeError).
Proof.
  intros Hm. unfold event_webhook. rewrite Hm. cbn [pbind getitem].
  split; [|split].
  - by intros auth -> ->.
  - by intros raw -> ->.
  - intros v -> Hv. cbn [pbind]. destruct v; try done. by destruct (Hv s).
Qed.

Definition msg_empty_webhook : json :=
  JObj [("bucket", JStr "b"); ("key", JStr "k");
        ("webhook", JStr ""); ("auth", JStr "tok")].

Lemma event_webhook_rejects_witness :
  event_webhook lib0 (sns_event msg_empty_webhook)
  = Err (PyException "Unable to retrieve webhook from event.").
Proof.
  refine (proj1 (event_webhook_rejects lib0 (sns_event msg_empty_webhook)
                   [("bucket", JStr "b"); ("key", JStr "k");
                    ("webhook", JStr ""); ("auth", JStr "tok")] _)
                (JStr "tok") _ _).
  - vm_compute. reflexivity.
  - reflexivity.
  - reflexivity.
Defined.

(** ** Keys without escapes *)

Lemma split_percent_plain (s : string) :
  contains "%" s = false -> split_percent s = [s].
Proof.
  induction s as [|c s IH]; [done|].
  rewrite contains_cons, starts_with_cons. intros [Hc Hs]%orb_false_elim.
  change (starts_with "" s) with true in Hc. rewrite andb_true_r in Hc.
  cbn [split_percent]. rewrite Ascii.eqb_sym, Hc. by rewrite (IH Hs).
Qed.

Lemma unquote_plain (s : string) : contains "%" s = false -> unquote s = s.
Proof. intros H. unfold unquote. by rewrite split_percent_plain. Qed.

(** X5.  A key without percent sign and without plus sign is taken as it
    is: the decoded object has the bucket and the key of the message. *)
Theorem event_object_plain_key
    (lib : PyLib) (event : json) (d : list (string * json)) (b : json)
    (raw : string) :
  event_message lib event = OK (JObj d) ->
  dict_get "bucket" d = Some b -> truthy b = true ->
  dict_get "key" d = Some (JStr raw) -> raw <> "" ->
  contains "%" raw = false -> contains "+" raw = false ->
  event_object lib event = OK (s3_Object b raw).
Proof.
  intros Hm Hb Ht Hk Hraw Hpct Hplus.
  rewrite (event_object_valid lib event d b raw Hm Hb Ht Hk Hraw).
  unfold unquote_plus. by rewrite replace_plus_id, unquote_plain.
Qed.

Lemma event_object_plain_key_witness :
  event_object lib0 (sns_event msg_full)
  = OK (s3_Object (JStr "b") "dir/eicar.txt").
Proof.
  apply (event_object_plain_key lib0 (sns_event msg_full)
           [("bucket", JStr "b"); ("key", JStr "dir/eicar.txt");
            ("webhook", JStr "https://x/:service"); ("auth", JStr "tok")]).
  - vm_compute. reflexivity.
  - reflexivity.
  - reflexivity.
  - reflexivity.
  - discriminate.
  - reflexivity.
  - reflexivity.
Defined.


(** ** The fetch step *)

(** X6.  The fetch step: when the local path cannot be formed no call is
    made; otherwise the directory of the path is created first and the
    download follows only when that returned; a failure of either leaves
    the disk as it was, and on success the returned path is on disk.  The
    tag store is never touched. *)
Theorem download_s3_object_steps
    (lib : PyLib) (env : Env) (o : S3Object) (local_prefix : string)
    (w : World) :
  (forall e, local_path_of lib local_prefix o = Err e ->
             download_s3_object lib env o local_prefix w = (w, Err e))
  /\ forall p,
       local_path_of lib local_prefix o = OK p ->
       let make_dir := CreateDir (dirname p) in
       let fetch := S3DownloadFile (bucket_name o) (key o) p in
       let run := download_s3_object lib env o local_prefix w in
       tagsets run.1 = tagsets w
       /\ match env_fault env (calls w) make_dir with
          | Some e =>
              run.2 = Err e /\ calls run.1 = calls w ++ [make_dir]
              /\ files run.1 = files w
          | None =>
              calls run.1 = calls w ++ [make_dir; fetch]
              /\ match env_fault env (calls w ++ [make_dir]) fetch with
                 | Some e => run.2 = Err e /\ files run.1 = files w
                 | None => run.2 = OK p /\ files run.1 = {[p]} ∪ files w
                 end
          end.
Proof.
  unfold download_s3_object, bind, lift, external, ret. split.
  - by intros e ->.
  - intros p ->. cbn zeta.
    destruct (env_fault env (calls w) _) as [e|]; cbn [fst snd calls tagsets
      files record_call effect]; [done|].
    destruct (env_fault env (calls w ++ _) _) as [e|];
      cbn [fst snd calls tagsets files record_call effect];
      by rewrite <- app_assoc.
Qed.

(** X7.  Two different keys of one bucket never share a local path. *)
Theorem local_paths_of_distinct_keys
    (lib : PyLib) (local_prefix b k1 k2 p1 p2 : string) :
  local_path_of lib local_prefix (s3_Object (JStr b) k1) = OK p1 ->
  local_path_of lib local_prefix (s3_Object (JStr b) k2) = OK p2 ->
  k1 <> k2 -> p1 <> p2.
Proof.
  unfold local_path_of. cbn [bucket_name key].
  destruct (all_ascii k1); [|done]. destruct (all_ascii k2); [|done].
  intros [= <-] [= <-] Hne Heq. apply Hne.
  by repeat (apply (inj (String.app _)) in Heq).
Qed.

Lemma local_paths_of_distinct_keys_witness :
  local_path_of lib0 "/tmp" (s3_Object (JStr "b") "a/x.txt")
  = OK "/tmp/b/a/x.txt"
  /\ local_path_of lib0 "/tmp" (s3_Object (JStr "b") "a/y.txt")
     = OK "/tmp/b/a/y.txt"
  /\ "/tmp/b/a/x.txt" <> "/tmp/b/a/y.txt".
Proof.
  split; [reflexivity|]. split; [reflexivity|].
  apply (local_paths_of_distinct_keys lib0 "/tmp" "b" "a/x.txt" "a/y.txt").
  - reflexivity.
  - reflexivity.
  - discriminate.
Defined.

(** ** The metadata sink *)

(** X8.  The metadata sink: it loads the object once; when that raises it
    copies nothing.  Otherwise it copies the object onto itself with the
    content type it loaded and a metadata map that agrees with the loaded
    one on every key other than the status and timestamp keys, holds the
    timestamp, and (for different keys) holds the status; its result is the
    result of the copy.  Neither the disk nor the tag store changes. *)
Theorem set_av_metadata_preserves
    (cfg : Config) (env : Env) (o : S3Object) (result : string) (w : World) :
  let run := set_av_metadata cfg env o result w in
  let load := S3HeadObject (bucket_name o) (key o) in
  let head := env_head_object env (calls w) (bucket_name o) (key o) in
  files run.1 = files w /\ tagsets run.1 = tagsets w
  /\ match env_fault env (calls w) load with
     | Some e => run.2 = Err e /\ calls run.1 = calls w ++ [load]
     | None =>
         exists metadata,
           let copy := S3Copy (bucket_name o) (key o) head.1 metadata in
           calls run.1 = calls w ++ [load; copy]
           /\ (forall j, j <> AV_STATUS_METADATA cfg ->
                         j <> AV_TIMESTAMP_METADATA cfg ->
                         metadata !! j = head.2 !! j)
           /\ metadata !! AV_TIMESTAMP_METADATA cfg
              = Some (env_utcnow env (calls w ++ [load]))
           /\ (AV_STATUS_METADATA cfg <> AV_TIMESTAMP_METADATA cfg ->
               metadata !! AV_STATUS_METADATA cfg = Some result)
           /\ run.2 = match env_fault env (calls w ++ [load]) copy with
                      | Some e => Err e
                      | None => OK tt
                      end
     end.
Proof.
  cbn zeta.
  unfold set_av_metadata, bind, s3_object_load, utcnow_strftime, external.
  destruct (env_fault env (calls w) _) as [e|];
    cbn [fst snd calls tagsets files record_call effect]; [done|].
  destruct (env_fault env (calls w ++ _) _) as [e|] eqn:Hcopy;
    cbn [fst snd calls tagsets files record_call effect].
  all: split; [done|]; split; [done|]; eexists; split;
    [by rewrite <- app_assoc|].
  all: split; [intros j H1 H2; by rewrite !lookup_insert_ne by done|].
  all: split; [by rewrite lookup_insert_eq|].
  all: split; [intros Hne; by apply metadata_status|].
  all: by rewrite Hcopy.
Qed.

(** ** The tag sink *)




(** ** The topic sink *)

(** X10.  The topic sink changes neither the disk nor the tag store.
    Without a configured target it makes no call and returns.  With one it
    creates the client; when that raises, or when one of the two
    [json.dumps] raises, it raises that error and the client call is its
    only call; otherwise it publishes once to the target the serialisation
    of the object whose [default] field is the serialised message, and
    raises exactly when the publish raises. *)
Theorem sns_scan_results_behaviour
    (lib : PyLib) (cfg : Config) (env : Env) (o : S3Object) (result : string)
    (w : World) :
  let run := sns_scan_results lib cfg env o result w in
  let client := Boto3Client "sns" in
  let message := sns_message cfg o result (env_utcnow env (calls w)) in
  files run.1 = files w /\ tagsets run.1 = tagsets w
  /\ (AV_STATUS_SNS_ARN cfg = None -> run = (w, OK tt))
  /\ forall arn,
       AV_STATUS_SNS_ARN cfg = Some arn ->
       match env_fault env (calls w) client with
       | Some e => run.2 = Err e /\ calls run.1 = calls w ++ [client]
       | None =>
           match json_dumps lib (JObj message) with
           | Err e => run.2 = Err e /\ calls run.1 = calls w ++ [client]
           | OK inner =>
               match json_dumps lib (JObj [("default", JStr inner)]) with
               | Err e => run.2 = Err e /\ calls run.1 = calls w ++ [client]
               | OK text =>
                   calls run.1 = calls w ++ [client; SnsPublish arn text]
                   /\ run.2 = match env_fault env (calls w ++ [client])
                                      (SnsPublish arn text) with
                              | Some e => Err e
                              | None => OK tt
                              end
               end
           end
       end.
Proof.
  cbn zeta. unfold sns_scan_results.
  destruct (AV_STATUS_SNS_ARN cfg) as [arn|]; [|done].
  unfold bind, utcnow_strftime, external, lift.
  destruct (env_fault env (calls w) _) as [e|];
    cbn [fst snd calls tagsets files record_call effect].
  { do 3 (split; [done|]). by intros ? _. }
  destruct (json_dumps lib (JObj _)) as [inner|e];
    cbn [fst snd calls tagsets files record_call effect].
  2: { do 3 (split; [done|]). by intros ? _. }
  destruct (json_dumps lib (JObj [_])) as [text|e];
    cbn [fst snd calls tagsets files record_call effect].
  2: { do 3 (split; [done|]). by intros ? _. }
  destruct (env_fault env (calls w ++ _) _) as [e|] eqn:Hpub;
    cbn [fst snd calls tagsets files record_call effect].
  all: do 3 (split; [done|]).
  all: intros ? [= <-]; rewrite Hpub, <- app_assoc; done.
Qed.

(** X11.  The message of the topic sink: with status and timestamp keys
    that differ from each other and from [bucket] and [key], it has exactly
    the four bindings bucket, key, status, timestamp.  The timestamp
    binding is always the one read back; a status key configured as
    [bucket] replaces the bucket name by the status. *)
Theorem sns_message_fields
    (cfg : Config) (o : S3Object) (result now : string) :
  let status_key := AV_STATUS_METADATA cfg in
  let timestamp_key := AV_TIMESTAMP_METADATA cfg in
  (status_key <> timestamp_key ->
   status_key <> "bucket" -> status_key <> "key" ->
   timestamp_key <> "bucket" -> timestamp_key <> "key" ->
   sns_message cfg o result now
   = [("bucket", bucket_name o); ("key", JStr (key o));
      (status_key, JStr result); (timestamp_key, JStr now)])
  /\ dict_get timestamp_key (sns_message cfg o result now) = Some (JStr now)
  /\ (status_key = "bucket" -> timestamp_key <> "bucket" ->
      dict_get "bucket" (sns_message cfg o result now) = Some (JStr result)).
Proof.
  cbn zeta. unfold sns_message. split; [|split].
  - intros H1 H2 H3 H4 H5. cbn [dict_set].
    rewrite decide_False by done. cbn [dict_set].
    rewrite !(decide_False (P := _ = AV_STATUS_METADATA cfg)) by done.
    cbn [dict_set].
    by rewrite !(decide_False (P := _ = AV_TIMESTAMP_METADATA cfg)) by done.
  - apply dict_get_set_eq.
  - intros Hs Ht. rewrite dict_get_set_ne by done.
    rewrite Hs. apply dict_get_set_eq.
Qed.

(** ** The webhook-result sink *)

(** X12.  Any status other than the literal [INFECTED] is reported to the
    webhook as not infected with the result [clean]; the diagnostic text is
    not sent. *)
Theorem webhook_reports_clean_unless_infected
    (env : Env) (o : S3Object) (result output url : string) (auth : json)
    (w : World) :
  url <> "" -> result <> "INFECTED" ->
  calls (webhook_scan_results env o result output url auth w).1
  = calls w
    ++ [HttpPatch url
          (JObj [("filename", JStr (basename (key o)));
                 ("is_infected", JBool false);
                 ("status", JStr "success");
                 ("result", JStr "clean")]) auth].
Proof.
  intros Hurl Hres.
  unfold webhook_scan_results, external, webhook_message.
  rewrite (eqb_empty_false _ Hurl).
  apply String.eqb_neq in Hres. rewrite Hres.
  by destruct (env_fault env (calls w) _).
Qed.

Lemma webhook_reports_clean_unless_infected_witness :
  calls (webhook_scan_results env_ok (s3_Object (JStr "b") "dir/eicar.txt")
           "infected" "Eicar-Test-Signature" "https://x/antivirus"
           (JStr "tok") world0).1
  = [HttpPatch "https://x/antivirus"
       (JObj [("filename", JStr "eicar.txt"); ("is_infected", JBool false);
              ("status", JStr "success"); ("result", JStr "clean")])
       (JStr "tok")].
Proof.
  refine (eq_trans (webhook_reports_clean_unless_infected env_ok
            (s3_Object (JStr "b") "dir/eicar.txt") "infected"
            "Eicar-Test-Signature" "https://x/antivirus" (JStr "tok")
            world0 _ _) _).
  - discriminate.
  - discriminate.
  - reflexivity.
Defined.


(** ** The order of the pipeline *)

Inductive Stage : Type :=
| WebhookStart | MakeDir | Fetch | UpdateDefs | Scan
| LoadHead | CopyMetadata | ReadTags | WriteTags
| SnsClient | Publish | WebhookResult | Metrics | Cleanup.

Definition stage_of (c : Call) : Stage :=
  match c with
  | HttpPost _ _ _ => WebhookStart
  | CreateDir _ => MakeDir
  | S3DownloadFile _ _ _ => Fetch
  | ClamavUpdateDefs _ _ => UpdateDefs
  | ClamavScanFile _ => Scan
  | S3HeadObject _ _ => LoadHead
  | S3Copy _ _ _ _ => CopyMetadata
  | S3GetObjectTagging _ _ => ReadTags
  | S3PutObjectTagging _ _ _ => WriteTags
  | Boto3Client _ => SnsClient
  | SnsPublish _ _ => Publish
  | HttpPatch _ _ _ => WebhookResult
  | MetricsSend _ _ _ _ => Metrics
  | OsRemove _ => Cleanup
  end.

(** The stages of lines 136-151, with the two sinks that the configuration
    switches. *)
Definition pipeline_stages (cfg : Config) : list Stage :=
  [WebhookStart; MakeDir; Fetch; UpdateDefs; Scan]
  ++ (if AV_UPDATE_METADATA cfg then [LoadHead; CopyMetadata] else [])
  ++ [ReadTags; WriteTags]
  ++ match AV_STATUS_SNS_ARN cfg with
     | Some _ => [SnsClient; Publish]
     | None => []
     end
  ++ [WebhookResult; Metrics; Cleanup].

Ltac known_switches :=
  repeat match goal with
         | H : AV_UPDATE_METADATA _ = _ |- _ => rewrite H
         | H : AV_STATUS_SNS_ARN _ = _ |- _ => rewrite H
         end.

(** X13.  The calls of every run follow the order of the pipeline:
    webhook start, directory, fetch, definition update, scan, metadata
    (when switched on), tags, topic (when a target is configured), webhook
    result, metrics, cleanup.  A run that raises stops somewhere along this
    order; a normal return has gone through all of it. *)
Theorem pipeline_order
    (lib : PyLib) (cfg : Config) (env : Env) (event : json)
    (w w' : World) (res : pyresult unit) (tr : list Call) :
  lambda_handler lib cfg env event w = (w', res) ->
  calls w' = calls w ++ tr ->
  (stage_of <$> tr) `prefix_of` pipeline_stages cfg
  /\ (res = OK tt -> stage_of <$> tr = pipeline_stages cfg).
Proof.
  intros Hrun Htr. by_wp Hrun Htr. run_handler.
  all: unfold pipeline_stages; known_switches.
  all: (split; [eexists; cbn; reflexivity|]).
  all: intros Hres; first [discriminate Hres | reflexivity].
Qed.

(** ** Failures are not isolated *)

(** The rules of the calculus for the three calls that answer, keeping the
    fact that the call did not raise. *)
Lemma wp_scan_file_answered (env : Env) (path : string) (w : World) Q :
  (forall e, env_fault env (calls w) (ClamavScanFile path) = Some e ->
             Q (record_call (ClamavScanFile path) w) (Err e)) ->
  (env_fault env (calls w) (ClamavScanFile path) = None ->
   forall verdict, verdict = env_scan_file env (calls w) path ->
                   Q (record_call (ClamavScanFile path) w) (OK verdict)) ->
  wp (clamav_scan_file env path) w Q.
Proof.
  unfold wp, clamav_scan_file. intros He Hok.
  destruct (env_fault env (calls w) _) as [e|]; simpl; auto.
Qed.

Lemma wp_load_answered (env : Env) (o : S3Object) (w : World) Q :
  (forall e, env_fault env (calls w) (S3HeadObject (bucket_name o) (key o))
             = Some e ->
             Q (record_call (S3HeadObject (bucket_name o) (key o)) w) (Err e)) ->
  (env_fault env (calls w) (S3HeadObject (bucket_name o) (key o)) = None ->
   forall head, Q (record_call (S3HeadObject (bucket_name o) (key o)) w)
                  (OK head)) ->
  wp (s3_object_load env o) w Q.
Proof.
  unfold wp, s3_object_load. intros He Hok.
  destruct (env_fault env (calls w) _) as [e|]; simpl; auto.
Qed.

Lemma wp_get_tagging_answered (env : Env) (b : json) (k : string) (w : World) Q :
  (forall e, env_fault env (calls w) (S3GetObjectTagging b k) = Some e ->
             Q (record_call (S3GetObjectTagging b k) w) (Err e)) ->
  (env_fault env (calls w) (S3GetObjectTagging b k) = None ->
   forall curr_tags, curr_tags = tagsets w b k ->
                     Q (record_call (S3GetObjectTagging b k) w) (OK curr_tags)) ->
  wp (get_object_tagging env b k) w Q.
Proof.
  unfold wp, get_object_tagging. intros He Hok.
  destruct (env_fault env (calls w) _) as [e|]; simpl; auto.
Qed.

Ltac wp_step_answered :=
  lazymatch goal with
  | |- wp (clamav_scan_file _ _) _ _ =>
      apply wp_scan_file_answered; [intros ? ?|intros ? [? ?] ?]
  | |- wp (s3_object_load _ _) _ _ =>
      apply wp_load_answered; [intros ? ?|intros ? [? ?]]
  | |- wp (get_object_tagging _ _ _) _ _ =>
      apply wp_get_tagging_answered; [intros ? ?|intros ? ? ?]
  | _ => wp_step_handler
  end.

Ltac run_handler_answered :=
  apply wp_lambda_handler;
  [ intros ? ?; trace_exists
  | intros ? ? ? ?; trace_exists
  | intros ? ? ? ? ? ?; unfold after_decoding; unfold_handler;
    repeat (wp_step_answered;
            cbn [effect record_call calls files tagsets fst snd] in * );
    norm_trace; trace_exists ].

(** The statement of [first_failure_aborts] for the calls [todo] that
    follow the calls [done] already known to have returned. *)
Definition fails_fast (env : Env) (h done todo : list Call)
    (res : pyresult unit) : Prop :=
  forall pre c post ex,
    todo = pre ++ c :: post ->
    is_remove c = false ->
    env_fault env (h ++ done ++ pre) c = Some ex ->
    post = [] /\ res = Err ex.

Lemma fails_fast_nil env h done res : fails_fast env h done [] res.
Proof. intros pre c post ex H. by destruct (app_cons_not_nil _ _ _ H). Qed.

Lemma fails_fast_raised env h done c e :
  env_fault env (h ++ done) c = Some e ->
  fails_fast env h done [c] (Err e).
Proof.
  intros He [|x pre] c' post ex H _ Hex; cbn [app] in H.
  - injection H as <- <-. rewrite app_nil_r in Hex. split; congruence.
  - injection H as _ H. by destruct (app_cons_not_nil _ _ _ H).
Qed.

Lemma fails_fast_removed env h done p res :
  fails_fast env h done [OsRemove p] res.
Proof.
  intros [|x pre] c' post ex H Hrm _; cbn [app] in H.
  - by injection H as <- _.
  - injection H as _ H. by destruct (app_cons_not_nil _ _ _ H).
Qed.

Lemma fails_fast_returned env h done c todo res :
  env_fault env (h ++ done) c = None ->
  fails_fast env h (done ++ [c]) todo res ->
  fails_fast env h done (c :: todo) res.
Proof.
  intros Hc Hrest [|x pre] c' post ex H Hrm Hex; cbn [app] in H.
  - injection H as <- _. rewrite app_nil_r in Hex. congruence.
  - injection H as <- H. apply (Hrest pre c' post ex H Hrm).
    by rewrite <- (app_assoc done [c] pre).
Qed.

Ltac fails_fast_steps :=
  repeat first
    [ apply fails_fast_nil
    | apply fails_fast_removed
    | apply fails_fast_raised; rewrite ?app_nil_r; cbn [app]; assumption
    | apply fails_fast_returned;
      [rewrite ?app_nil_r; cbn [app]; assumption | cbn [app]] ].

(** X14.  A call that raises is the last call of the run, and the handler
    raises its exception: no later step runs, whichever collaborator
    failed.  (The removal of the local file is the one call whose [OSError]
    is caught.) *)
Theorem first_failure_aborts
    (lib : PyLib) (cfg : Config) (env : Env) (event : json)
    (w w' : World) (res : pyresult unit) (tr : list Call) :
  lambda_handler lib cfg env event w = (w', res) ->
  calls w' = calls w ++ tr ->
  forall pre c post ex,
    tr = pre ++ c :: post ->
    is_remove c = false ->
    env_fault env (calls w ++ pre) c = Some ex ->
    post = [] /\ res = Err ex.
Proof.
  intros Hrun Htr.
  change (fails_fast env (calls w) [] tr res).
  by_wp Hrun Htr. run_handler_answered.
  all: fails_fast_steps.
Qed.

Lemma pipeline_order_witness :
  stage_of <$> calls (lambda_handler lib0 cfg0 env_ok (sns_event msg_full)
                        world0).1
  = pipeline_stages cfg0.
Proof.
  assert (Hres : (lambda_handler lib0 cfg0 env_ok (sns_event msg_full)
                    world0).2 = OK tt) by (vm_compute; reflexivity).
  destruct (lambda_handler lib0 cfg0 env_ok (sns_event msg_full) world0)
    as [w' res] eqn:Hrun.
  exact (proj2 (pipeline_order lib0 cfg0 env_ok (sns_event msg_full) world0
                  w' res (calls w') Hrun eq_refl) Hres).
Defined.

Lemma first_failure_aborts_witness :
  (lambda_handler lib0 cfg0 env_defs_fail (sns_event msg_full) world0).2
  = Err (ExternalError "clamav").
Proof.
  assert (Hcalls : calls (lambda_handler lib0 cfg0 env_defs_fail
                            (sns_event msg_full) world0).1
                   = [HttpPost "https://x/antivirus" (JObj []) (JStr "tok");
                      CreateDir "/tmp/b/dir";
                      S3DownloadFile (JStr "b") "dir/eicar.txt"
                        "/tmp/b/dir/eicar.txt"]
                     ++ ClamavUpdateDefs "av-defs" "clamav_defs" :: [])
    by (vm_compute; reflexivity).
  destruct (lambda_handler lib0 cfg0 env_defs_fail (sns_event msg_full) world0)
    as [w' res] eqn:Hrun.
  exact (proj2 (first_failure_aborts lib0 cfg0 env_defs_fail
                  (sns_event msg_full) world0 w' res (calls w') Hrun eq_refl
                  _ _ _ (ExternalError "clamav") Hcalls eq_refl eq_refl)).
Defined.


(** ** What the handler leaves alone *)

Lemma put_tags_changed (b0 b : json) (k0 k : string) (ts : list Tag)
    (store : json -> string -> list Tag) :
  put_tags b0 k0 ts store b k <> store b k -> b = b0 /\ k = k0.
Proof.
  unfold put_tags. destruct (decide (b = b0 /\ k = k0)); [done|].
  intros H. by destruct H.
Qed.

Lemma added_file (a q : string) (X : gset string) :
  q ∈ {[a]} ∪ X -> q ∉ X -> q = a.
Proof.
  intros [Hq%elem_of_singleton|Hq]%elem_of_union Hn; [done|by destruct Hn].
Qed.

Lemma kept_file (a q : string) (X : gset string) :
  q ∈ ({[a]} ∪ X) ∖ {[a]} -> q ∈ X.
Proof.
  intros [[Hq|Hq]%elem_of_union Hn]%elem_of_difference; [by destruct Hn|done].
Qed.

Lemma removed_file (a q : string) (X : gset string) :
  q ∈ X -> q ∉ ({[a]} ∪ X) ∖ {[a]} -> q = a.
Proof.
  intros Hq Hn. destruct (decide (q = a)) as [|Hne]; [done|].
  destruct Hn. apply elem_of_difference. split; [by apply elem_of_union_r|].
  by intros ?%elem_of_singleton.
Qed.

Ltac frame_tags :=
  intros ? ? Hne;
  first [ by destruct Hne
        | apply put_tags_changed in Hne as [-> ->]; eexists; by split ].

Ltac frame_files :=
  cbn [files];
  try match goal with H : files _ = _ |- _ => rewrite H end;
  split;
  [ intros q Hq Hn;
    first [ by destruct Hn
          | by destruct Hn; eapply kept_file
          | apply added_file in Hq as ->; [|done]; eexists; by split ]
  | intros q Hq Hn;
    first [ by destruct Hn
          | by destruct Hn; apply elem_of_union_r
          | apply removed_file in Hn as ->; [|done];
            split; [done|]; eexists; by split ] ].

(** X15.  The handler changes the tags of no object but the decoded one,
    puts no file on disk but the local copy of that object, and removes no
    file but that copy, which it removes only on a normal return. *)
Theorem handler_touches_only_its_object
    (lib : PyLib) (cfg : Config) (env : Env) (event : json)
    (w w' : World) (res : pyresult unit) :
  lambda_handler lib cfg env event w = (w', res) ->
  (forall b k,
     tagsets w' b k <> tagsets w b k ->
     exists o, event_object lib event = OK o
               /\ b = bucket_name o /\ k = key o)
  /\ (forall q,
        q ∈ files w' -> q ∉ files w ->
        exists o, event_object lib event = OK o
                  /\ local_path_of lib "/tmp" o = OK q)
  /\ (forall q,
        q ∈ files w -> q ∉ files w' ->
        res = OK tt
        /\ exists o, event_object lib event = OK o
                     /\ local_path_of lib "/tmp" o = OK q).
Proof.
  revert w' res. apply wp_run.
  apply wp_lambda_handler;
    [ intros ? ? | intros ? ? ? ?
    | intros ? ? ? ? ? ?; unfold after_decoding; unfold_handler;
      wp_steps_handler ].
  all: cbn [tagsets];
    try match goal with H : tagsets _ = _ |- _ => rewrite H end.
  all: (split; [frame_tags|frame_files]).
Qed.

Lemma handler_touches_only_its_object_witness :
  exists o,
    event_object lib0 (sns_event msg_full) = OK o
    /\ local_path_of lib0 "/tmp" o = OK "/tmp/b/dir/eicar.txt".
Proof.
  assert (Hin : "/tmp/b/dir/eicar.txt"
                ∈ files (lambda_handler lib0 cfg0 env_defs_fail
                           (sns_event msg_full) world0).1)
    by (vm_compute; reflexivity).
  destruct (lambda_handler lib0 cfg0 env_defs_fail (sns_event msg_full) world0)
    as [w' res] eqn:Hrun.
  refine (proj1 (proj2 (handler_touches_only_its_object lib0 cfg0
                          env_defs_fail (sns_event msg_full) world0 w' res
                          Hrun)) "/tmp/b/dir/eicar.txt" Hin _).
  apply not_elem_of_empty.
Defined.


(** ** Normal returns *)

Lemma scan_log_line_ok (o : S3Object) (status joined : string) :
  os_path_join (bucket_name o) (key o) = OK joined ->
  all_ascii status = true ->
  exists line, scan_log_line o status = OK line.
Proof.
  intros Hjoin Hascii. unfold scan_log_line.
  rewrite Hjoin, Hascii, orb_true_r. cbn [pbind]. by eexists.
Qed.

(** X16.  When every collaborator answers, the status of the engine is
    ASCII, [json.dumps] accepts the message of the topic sink (where a
    target is configured), and the local path and the joined path of the
    log line can be formed, the handler returns normally, and the disk holds
    what it held before, less the path of the local copy. *)
Theorem handler_returns_when_all_answer
    (lib : PyLib) (cfg : Config) (env : Env) (event : json)
    (w w' : World) (res : pyresult unit)
    (o : S3Object) (url : string) (auth : json) (p joined : string) :
  (forall h c, env_fault env h c = None) ->
  (forall h path, all_ascii (env_scan_file env h path).1 = true) ->
  (forall arn h1 h2 path,
     AV_STATUS_SNS_ARN cfg = Some arn ->
     exists inner text,
       json_dumps lib
         (JObj (sns_message cfg o (env_scan_file env h1 path).1
                  (env_utcnow env h2))) = OK inner
       /\ json_dumps lib (JObj [("default", JStr inner)]) = OK text) ->
  event_object lib event = OK o ->
  event_webhook lib event = OK (url, auth) ->
  local_path_of lib "/tmp" o = OK p ->
  os_path_join (bucket_name o) (key o) = OK joined ->
  lambda_handler lib cfg env event w = (w', res) ->
  res = OK tt /\ files w' = files w ∖ {[p]}.
Proof.
  intros Hanswer Hascii Hdumps Ho Hw Hp Hjoin. revert w' res. apply wp_run.
  apply wp_lambda_handler.
  - intros e He. congruence.
  - intros o' e _ He. congruence.
  - intros o' url' auth' Ho' Hw' Hne. assert (o' = o) as -> by congruence.
    unfold after_decoding; unfold_handler; wp_steps_handler.
    all: try congruence.
    all: try match goal with
             | H : env_fault _ _ _ = Some _ |- _ => by rewrite Hanswer in H
             end.
    all: try match goal with
             | Hs : (?s, _) = env_scan_file _ ?h ?path,
               H : scan_log_line _ ?s = Err _ |- _ =>
                 destruct (scan_log_line_ok o s joined Hjoin) as [? ?];
                 [generalize (Hascii h path); by rewrite <- Hs | congruence]
             end.
    all: try match goal with
             | Hs : (?s, _) = env_scan_file _ ?h ?path,
               Hn : ?now = env_utcnow _ ?h2,
               H : json_dumps _ (JObj (sns_message _ _ ?s ?now)) = _ |- _ =>
                 destruct (Hdumps _ h h2 path eq_refl)
                   as (inner & text & Hinner & Htext);
                 rewrite <- Hs, <- Hn in Hinner; cbn [fst] in Hinner;
                 congruence
             end.
    all: split; [done|].
    all: match goal with H : files _ = _ |- _ => rewrite H end.
    all: assert (p = a) as <- by congruence.
    all: apply set_eq; intros q; rewrite !elem_of_difference, elem_of_union;
      rewrite elem_of_singleton; tauto.
Qed.

(** Every collaborator answers, the engine reports a clean file and the
    clock stands still. *)
Definition env_clean : Env :=
  mkEnv (fun _ _ => None)
        (fun _ _ => ("CLEAN", ""))
        (fun _ _ _ => ("text/plain", {["owner" := "ops"]}))
        (fun _ => "2019/01/01 00:00:00 UTC").

Lemma handler_returns_when_all_answer_witness :
  (lambda_handler lib0 cfg0 env_clean (sns_event msg_full) world0).2 = OK tt
  /\ files (lambda_handler lib0 cfg0 env_clean (sns_event msg_full) world0).1
     = files world0 ∖ {["/tmp/b/dir/eicar.txt"]}.
Proof.
  destruct (lambda_handler lib0 cfg0 env_clean (sns_event msg_full) world0)
    as [w' res] eqn:Hrun.
  apply (handler_returns_when_all_answer lib0 cfg0 env_clean
           (sns_event msg_full) world0 w' res
           (s3_Object (JStr "b") "dir/eicar.txt") "https://x/antivirus"
           (JStr "tok") "/tmp/b/dir/eicar.txt" "b/dir/eicar.txt").
  - reflexivity.
  - reflexivity.
  - intros arn h1 h2 path _. eexists _, _. split; vm_compute; reflexivity.
  - vm_compute. reflexivity.
  - vm_compute. reflexivity.
  - reflexivity.
  - reflexivity.
  - exact Hrun.
Defined.


